(** * ChronoFlux: the generation client and the parameter collector

    A shallow embedding of [streamlit_app.py].  The program talks to three
    remote endpoints (submission, status, image download), sleeps between
    status queries and prints progress text.  The remote side is an oracle
    ([world]); every call, sleep and printed line is logged in a trace, and
    Python exceptions are explicit results, so that [try]/[except] can be
    followed branch by branch. *)

From Stdlib Require Import List String Ascii ZArith QArith Bool Lia.
Import ListNotations.
Local Close Scope Q_scope.
Local Open Scope list_scope.
Local Open Scope string_scope.
Set Warnings "-register-all".

(** ** Python values as the JSON decoder produces them *)

(** A decoded number is an [int] or a [float]; the program never computes
    with one, it only tests containers and compares with string literals, so
    a rational stands for the [float].  A [JObj] lists the items of a [dict]
    in order; [dict_get] takes the first item with the key. *)
Inductive json : Type :=
| JNull
| JBool (b : bool)
| JNum (n : Z)
| JFloat (x : Q)
| JStr (s : string)
| JList (l : list json)
| JObj (m : list (string * json)).

Fixpoint dict_get (k : string) (m : list (string * json)) : option json :=
  match m with
  | [] => None
  | (k', v) :: m' => if String.eqb k k' then Some v else dict_get k m'
  end.

(** [v == "lit"] for a decoded value [v] and a string literal. *)
Definition eq_str (v : json) (lit : string) : bool :=
  match v with
  | JStr s => String.eqb s lit
  | _ => false
  end.

(** [needle in hay] on [str]: substring test. *)
Fixpoint is_infix (needle hay : string) : bool :=
  if String.prefix needle hay then true
  else match hay with
       | EmptyString => false
       | String _ hay' => is_infix needle hay'
       end.

Definition type_name (v : json) : string :=
  match v with
  | JNull => "NoneType"
  | JBool _ => "bool"
  | JNum _ => "int"
  | JFloat _ => "float"
  | JStr _ => "str"
  | JList _ => "list"
  | JObj _ => "dict"
  end.

(** ** HTTP responses and exceptions *)

Record response : Type := {
  status_code : Z;
  (** text of the [HTTPError] that [raise_for_status] builds for this
      response (status, reason phrase and url) *)
  error_text : string;
  (** outcome of [.json()]: the decoded body, or the text of the decoding
      error *)
  json_body : json + string;
  (** [.content], the raw bytes of the body *)
  content : string
}.

Inductive exn_class : Type :=
| KeyError | IndexError | TypeError | AttributeError
| JSONDecodeError | RequestException | ImageError.

(** [HTTPError] is the one class the outer handler singles out; it carries
    the response ([e.response]).  Every exception here derives from
    [Exception]. *)
Inductive exn : Type :=
| HTTPError (msg : string) (r : response)
| Exn (c : exn_class) (msg : string).

(** [str(e)] *)
Definition exn_str (e : exn) : string :=
  match e with
  | HTTPError msg _ => msg
  | Exn _ msg => msg
  end.

Inductive res (A : Type) : Type :=
| Ok (a : A)
| Raise (e : exn).
Arguments Ok {A} a.
Arguments Raise {A} e.

(** [repr] of a string key that is a plain identifier, as [KeyError] prints
    it. *)
Definition repr_key (k : string) : string := "'" ++ k ++ "'".

(** [key in v] *)
Definition py_contains (key : string) (v : json) : res bool :=
  match v with
  | JObj m => Ok (match dict_get key m with Some _ => true | None => false end)
  | JList l => Ok (existsb (fun x => eq_str x key) l)
  | JStr s => Ok (is_infix key s)
  | _ => Raise (Exn TypeError
                  ("argument of type '" ++ type_name v ++ "' is not iterable"))
  end.

(** [v[key]] with a string key *)
Definition py_getitem (v : json) (key : string) : res json :=
  match v with
  | JObj m => match dict_get key m with
              | Some x => Ok x
              | None => Raise (Exn KeyError (repr_key key))
              end
  | JList _ =>
      Raise (Exn TypeError "list indices must be integers or slices, not str")
  | JStr _ =>
      Raise (Exn TypeError "string indices must be integers, not 'str'")
  | _ => Raise (Exn TypeError
                  ("'" ++ type_name v ++ "' object is not subscriptable"))
  end.

(** [v[0]] *)
Definition py_first (v : json) : res json :=
  match v with
  | JList (x :: _) => Ok x
  | JList [] => Raise (Exn IndexError "list index out of range")
  | JStr (String c _) => Ok (JStr (String c EmptyString))
  | JStr EmptyString => Raise (Exn IndexError "string index out of range")
  | JObj _ => Raise (Exn KeyError "0")
  | _ => Raise (Exn TypeError
                  ("'" ++ type_name v ++ "' object is not subscriptable"))
  end.

(** [v.get(key, default)] *)
Definition py_get (v : json) (key : string) (default : json) : res json :=
  match v with
  | JObj m => Ok (match dict_get key m with Some x => x | None => default end)
  | _ => Raise (Exn AttributeError
                  ("'" ++ type_name v ++ "' object has no attribute 'get'"))
  end.

(** [response.raise_for_status()]: the library raises for the client and
    server error classes, 400 to 599. *)
Definition is_error_status (code : Z) : bool :=
  ((400 <=? code) && (code <? 600))%Z.

Definition raise_for_status (r : response) : res unit :=
  if is_error_status (status_code r)
  then Raise (HTTPError (error_text r) r)
  else Ok tt.

(** [response.json()] *)
Definition response_json (r : response) : res json :=
  match json_body r with
  | inl v => Ok v
  | inr msg => Raise (Exn JSONDecodeError msg)
  end.

(** ** The request *)

Record headers : Type := {
  x_key : string;
  accept : string;
  content_type : string
}.

Record payload : Type := {
  p_prompt : string;
  p_negative_prompt : string;
  p_width : Z;
  p_height : Z;
  p_guidance_scale : Q;
  p_seed : option Z;
  p_sampler : string;
  p_steps : Z
}.

(** A decoded picture. *)
Record image : Type := { pixels : string }.

(** ** The remote side *)

Inductive http_reply : Type :=
| Reply (r : response)
| NetworkError (msg : string).

Inductive decoded : Type :=
| Decoded (img : image)
| Undecodable (msg : string).

Record world : Type := {
  (** [requests.post(url, headers=..., json=...)] *)
  post_generate : string -> headers -> payload -> http_reply;
  (** the [n]-th (from 0) [requests.get] on the status endpoint, with the
      request id as query parameter *)
  get_result : nat -> string -> headers -> json -> http_reply;
  (** [requests.get(img_url)] *)
  get_url : json -> http_reply;
  (** [Image.open(io.BytesIO(content))] *)
  image_open : string -> decoded
}.

(** ** Traces and the monad *)

Inductive event : Type :=
| StWrite (text : string)
| HttpPost (url : string) (h : headers) (p : payload)
| Sleep (seconds : Q)
| HttpPoll (url : string) (h : headers) (request_id : json)
| HttpFetch (img_url : json)
| StError (text : string)
| StSuccess (text : string)
| StImage (img : image).

Definition trace : Type := list event.

(** A computation logs its events and ends with a value or an exception. *)
Definition M (A : Type) : Type := (trace * res A)%type.

Definition ret {A : Type} (a : A) : M A := ([], Ok a).

Definition bind {A B : Type} (m : M A) (f : A -> M B) : M B :=
  match m with
  | (t, Ok a) => let (t', r) := f a in ((t ++ t')%list, r)
  | (t, Raise e) => (t, Raise e)
  end.

(** [try: m  except Exception as e: h e] *)
Definition try_except {A : Type} (m : M A) (h : exn -> M A) : M A :=
  match m with
  | (t, Raise e) => let (t', r) := h e in ((t ++ t')%list, r)
  | (t, Ok a) => (t, Ok a)
  end.

Definition lift {A : Type} (r : res A) : M A := ([], r).

Definition emit (e : event) : M unit := ([e], Ok tt).

Declare Scope py_scope.
Delimit Scope py_scope with py.
Notation "x <- m ;; k" := (bind m (fun x => k))
  (at level 61, m at next level, right associativity) : py_scope.
Notation "m ;; k" := (bind m (fun _ => k))
  (at level 61, right associativity) : py_scope.
Local Open Scope py_scope.

Definition of_reply (rp : http_reply) : res response :=
  match rp with
  | Reply r => Ok r
  | NetworkError msg => Raise (Exn RequestException msg)
  end.

Definition of_decoded (d : decoded) : res image :=
  match d with
  | Decoded img => Ok img
  | Undecodable msg => Raise (Exn ImageError msg)
  end.

Definition st_write (text : string) : M unit := emit (StWrite text).

Definition time_sleep (seconds : Q) : M unit := emit (Sleep seconds).

Definition requests_post (w : world) (url : string) (h : headers) (p : payload)
  : M response :=
  emit (HttpPost url h p) ;; lift (of_reply (post_generate w url h p)).

Definition requests_get_result (w : world) (n : nat) (url : string)
    (h : headers) (request_id : json) : M response :=
  emit (HttpPoll url h request_id) ;;
  lift (of_reply (get_result w n url h request_id)).

Definition requests_get (w : world) (img_url : json) : M response :=
  emit (HttpFetch img_url) ;; lift (of_reply (get_url w img_url)).

(** The pair that [call_flux_api] returns: [(image, error)]. *)
Definition result : Type := (option image * option string)%type.

Definition newline : string := String (ascii_of_nat 10) EmptyString.

Definition max_attempts : nat := 60.

Definition poll_interval : Q := (1 # 2)%Q.

(** The locals [base_url], [headers] and [payload] of [call_flux_api]. *)
Definition base_url : string := "https://api.us1.bfl.ai/v1".

Definition mk_headers (api_key : string) : headers :=
  {| x_key := api_key;
     accept := "application/json";
     content_type := "application/json" |}.

Definition mk_payload (prompt negative_prompt : string) (width height : Z)
    (guidance_scale : Q) (seed : option Z) (sampler : string) (steps : Z)
  : payload :=
  {| p_prompt := prompt;
     p_negative_prompt := negative_prompt;
     p_width := width;
     p_height := height;
     p_guidance_scale := guidance_scale;
     p_seed := seed;
     p_sampler := sampler;
     p_steps := steps |}.

Section Client.

(** [repr] of a decoded value, as an f-string prints a value that is not a
    string. *)
Variable py_repr : json -> string.

(** [str(v)], what an f-string substitutes for [{v}] *)
Definition py_str (v : json) : string :=
  match v with
  | JStr s => s
  | _ => py_repr v
  end.

Variable w : world.

(** The [for _ in range(max_attempts)] loop with the [return] that follows
    it; [attempts] is what is left of the range. *)
Fixpoint poll_loop (h : headers) (request_id : json) (attempts : list nat)
  : M result :=
  match attempts with
  | [] => ret (None, Some "Image generation timed out")
  | n :: rest =>
      time_sleep poll_interval ;;
      reply <- requests_get_result w n (base_url ++ "/get_result") h request_id ;;
      result <- lift (response_json reply) ;;
      status <- lift (py_getitem result "status") ;;
      if eq_str status "Ready" then
        try_except
          (inner <- lift (py_getitem result "result") ;;
           has_sample <- lift (py_contains "sample" inner) ;;
           img_url <-
             (if has_sample : bool then
                inner <- lift (py_getitem result "result") ;;
                lift (py_getitem inner "sample")
              else
                inner <- lift (py_getitem result "result") ;;
                samples <- lift (py_getitem inner "samples") ;;
                lift (py_first samples)) ;;
           img_response <- requests_get w img_url ;;
           lift (raise_for_status img_response) ;;
           img <- lift (of_decoded (image_open w (content img_response))) ;;
           ret (Some img, None))
          (fun e =>
             ret (None,
                  Some ("Error processing API response: " ++ exn_str e
                        ++ newline ++ "Response: " ++ py_str result)))
      else
        status <- lift (py_getitem result "status") ;;
        if eq_str status "Failed" then
          err <- lift (py_get result "error" (JStr "Unknown error")) ;;
          ret (None, Some ("Generation failed: " ++ py_str err))
        else
          status <- lift (py_getitem result "status") ;;
          st_write ("Status: " ++ py_str status) ;;
          poll_loop h request_id rest
  end.

Definition call_flux_api (api_key prompt negative_prompt : string)
    (width height : Z) (guidance_scale : Q) (seed : option Z)
    (sampler : string) (steps : Z) : M result :=
  let h := mk_headers api_key in
  let p := mk_payload prompt negative_prompt width height guidance_scale seed
             sampler steps in
  try_except
    (st_write "Submitting image generation request..." ;;
     response <- requests_post w (base_url ++ "/flux-pro-1.1") h p ;;
     lift (raise_for_status response) ;;
     request_data <- lift (response_json response) ;;
     has_id <- lift (py_contains "id" request_data) ;;
     if negb has_id then ret (None, Some "No request ID in response")
     else
       request_id <- lift (py_getitem request_data "id") ;;
       st_write "Waiting for image generation..." ;;
       poll_loop h request_id (seq 0 max_attempts))
    (fun e =>
       match e with
       | HTTPError _ r =>
           try_except
             (error_detail <- lift (response_json r) ;;
              ret (None, Some ("API Error: " ++ py_str error_detail)))
             (fun _ => ret (None, Some ("API Error: " ++ exn_str e)))
       | Exn _ _ => ret (None, Some ("Unexpected error: " ++ exn_str e))
       end).

(** ** The page script *)

(** Lines 186 to 195: width and height from the chosen aspect ratio. *)
Definition aspect_size (aspect_ratio : string) : Z * Z :=
  if String.eqb aspect_ratio "Square (1:1)" then (1024, 1024)%Z
  else if String.eqb aspect_ratio "Portrait (3:4)" then (768, 1024)%Z
  else if String.eqb aspect_ratio "Landscape (4:3)" then (1024, 768)%Z
  else if String.eqb aspect_ratio "Wide (16:9)" then (1024, 576)%Z
  else (576, 1024)%Z.

(** Truth value of a [str]. *)
Definition str_truthy (s : string) : bool :=
  match s with
  | EmptyString => false
  | String _ _ => true
  end.

(** Truth value of the [error] component: [None] or a [str]. *)
Definition error_truthy (e : option string) : bool :=
  match e with
  | Some s => str_truthy s
  | None => false
  end.

(** The body of [if st.button("Generate Image")], lines 200 to 220, run when
    the button was pressed. *)
Definition generate_pressed (api_key prompt negative_prompt aspect_ratio : string)
    (guidance_scale : Q) (seed : option Z) (sampler : string) (steps : Z)
  : M unit :=
  let (width, height) := aspect_size aspect_ratio in
  if negb (str_truthy prompt) then
    emit (StError "Please enter a prompt first!")
  else
    r <- call_flux_api api_key prompt negative_prompt width height
           guidance_scale seed sampler steps ;;
    let (img, error) := r : result in
    if error_truthy error then
      emit (StError ("Error: " ++ match error with Some s => s | None => "" end))
    else
      match img with
      | Some i =>
          emit (StSuccess "✨ Generation Complete!") ;; emit (StImage i)
      | None => ret tt
      end.

End Client.

(** ** What a trace shows *)

Definition is_poll (e : event) : bool :=
  match e with
  | HttpPoll _ _ _ => true
  | _ => false
  end.

Definition is_network (e : event) : bool :=
  match e with
  | HttpPost _ _ _ | HttpPoll _ _ _ | HttpFetch _ => true
  | _ => false
  end.

(** Number of status queries. *)
Definition polls (t : trace) : nat := List.length (filter is_poll t).

(** Number of HTTP calls of any kind. *)
Definition network_calls (t : trace) : nat := List.length (filter is_network t).

(** The URLs downloaded, in order. *)
Fixpoint fetched (t : trace) : list json :=
  match t with
  | [] => []
  | HttpFetch u :: t' => u :: fetched t'
  | _ :: t' => fetched t'
  end.

(** Time slept. *)
Fixpoint elapsed (t : trace) : Q :=
  match t with
  | [] => 0%Q
  | Sleep d :: t' => (d + elapsed t')%Q
  | _ :: t' => elapsed t'
  end.

(** The part of a trace that precedes its [k]-th status query, [k] from 1. *)
Fixpoint before_poll (k : nat) (t : trace) : trace :=
  match t with
  | [] => []
  | e :: t' =>
      if is_poll e then
        match k with
        | S (S k') => e :: before_poll (S k') t'
        | _ => []
        end
      else e :: before_poll k t'
  end.

(** ** Replies of the remote side *)

(** A submission the service accepted: no error status, a JSON object with
    an [id]. *)
Inductive accepted : http_reply -> json -> Prop :=
| accepted_intro (r : response) (m : list (string * json)) (request_id : json) :
    is_error_status (status_code r) = false ->
    json_body r = inl (JObj m) ->
    dict_get "id" m = Some request_id ->
    accepted (Reply r) request_id.

(** A status reply: a JSON object with a [status] field. *)
Inductive status_reply : http_reply -> list (string * json) -> json -> Prop :=
| status_reply_intro (r : response) (m : list (string * json)) (status : json) :
    json_body r = inl (JObj m) ->
    dict_get "status" m = Some status ->
    status_reply (Reply r) m status.

(** A status reply that is neither [Ready] nor [Failed]. *)
Definition pending (rp : http_reply) : Prop :=
  exists m status,
    status_reply rp m status /\
    eq_str status "Ready" = false /\ eq_str status "Failed" = false.

(** The reply to the [n]-th status query of a run. *)
Definition status_query (w : world) (h : headers) (request_id : json) (n : nat)
  : http_reply :=
  get_result w n (base_url ++ "/get_result") h request_id.

(** The URL that the [Ready] branch takes from the result payload: [sample]
    when the payload has one, else the first of [samples]. *)
Inductive offers_url (inner : list (string * json)) (url : json) : Prop :=
| offers_sample :
    dict_get "sample" inner = Some url -> offers_url inner url
| offers_samples (others : list json) :
    dict_get "sample" inner = None ->
    dict_get "samples" inner = Some (JList (url :: others)) ->
    offers_url inner url.

(** The reply to the submission of a call. *)
Definition submission (w : world) (api_key prompt negative_prompt : string)
    (width height : Z) (guidance_scale : Q) (seed : option Z)
    (sampler : string) (steps : Z) : http_reply :=
  post_generate w (base_url ++ "/flux-pro-1.1") (mk_headers api_key)
    (mk_payload prompt negative_prompt width height guidance_scale seed
       sampler steps).

(** The two shapes of the pair a call may return: a picture and no message,
    or no picture and a message that is not empty. *)
Inductive outcome : result -> Prop :=
| success (img : image) : outcome (Some img, None)
| failure (msg : string) : msg <> "" -> outcome (None, Some msg).

(** One value to stand for [repr] where a closed example needs one. *)
Definition repr_sketch (v : json) : string :=
  match v with
  | JNull => "None"
  | JBool true => "True"
  | JBool false => "False"
  | JNum _ => "<int>"
  | JFloat _ => "<float>"
  | JStr s => repr_key s
  | JList _ => "[...]"
  | JObj _ => "{...}"
  end.

(** [m] ends with a proper pair or with an exception. *)
Definition pair_or_raise (m : M result) : Prop :=
  match snd m with
  | Ok r => outcome r
  | Raise _ => True
  end.

(** [m] returns, and what it returns is a proper pair. *)
Definition returns_pair (m : M result) : Prop :=
  exists r, snd m = Ok r /\ outcome r.

(** ** Scripted remote sides, for closed examples *)

Definition json_reply (code : Z) (reason : string) (body : json) : response :=
  {| status_code := code;
     error_text := reason;
     json_body := inl body;
     content := "" |}.

Definition bytes_reply (code : Z) (reason : string) (bytes : string) : response :=
  {| status_code := code;
     error_text := reason;
     json_body := inr "Expecting value: line 1 column 1 (char 0)";
     content := bytes |}.

(** A remote side that answers the submission with [submit], the [n]-th
    status query with [status n] and any download with [download]; every
    body decodes as a picture. *)
Definition scripted (submit : response) (status : nat -> response)
    (download : response) : world :=
  {| post_generate := fun _ _ _ => Reply submit;
     get_result := fun n _ _ _ => Reply (status n);
     get_url := fun _ => Reply download;
     image_open := fun bytes => Decoded {| pixels := bytes |} |}.

Definition job_accepted : response :=
  json_reply 200 "" (JObj [("id", JStr "job-1"); ("polling_url", JStr "u")]).

Definition still_pending : response :=
  json_reply 200 "" (JObj [("id", JStr "job-1"); ("status", JStr "Pending")]).

Definition ready_payload : list (string * json) :=
  [("samples", JList [JStr "https://img.example/two.png"]);
   ("sample", JStr "https://img.example/one.png")].

Definition ready_body : list (string * json) :=
  [("id", JStr "job-1"); ("status", JStr "Ready");
   ("result", JObj ready_payload)].

Definition picture_bytes : response := bytes_reply 200 "" "PNG".

(** Pending before attempt [n] (from 0), [Ready] with a [sample] from then
    on. *)
Definition ready_at (n : nat) (download : response) : world :=
  scripted job_accepted
    (fun i => if (i <? n)%nat then still_pending
              else json_reply 200 "" (JObj ready_body))
    download.

Definition never_ready (submit : response) : world :=
  scripted submit (fun _ => still_pending) picture_bytes.

Definition no_id_body : list (string * json) := [("status", JStr "queued")].

Definition empty_ready_body : list (string * json) :=
  [("status", JStr "Ready"); ("result", JObj [("seed", JNum 7)])].

Definition failed_body : list (string * json) :=
  [("status", JStr "Failed"); ("error", JStr "bad prompt")].

Definition failing_at (n : nat) (body : list (string * json)) : world :=
  scripted job_accepted
    (fun i => if (i <? n)%nat then still_pending
              else json_reply 200 "" (JObj body))
    picture_bytes.

Definition unprocessable : response :=
  json_reply 422
    "422 Client Error: Unprocessable Entity for url: https://api.us1.bfl.ai/v1/flux-pro-1.1"
    (JObj [("detail", JStr "prompt too long")]).

Definition not_found : response :=
  bytes_reply 404
    "404 Client Error: Not Found for url: https://img.example/one.png"
    "gone".

(** Replies with status 300: not 2xx, and no status [raise_for_status]
    raises for. *)
Definition job_accepted_300 : response :=
  json_reply 300 "" (JObj [("id", JStr "job-1")]).

Definition picture_bytes_300 : response := bytes_reply 300 "" "PNG".

(** ** Rounds of the loop, and further observations *)

Definition is_post (e : event) : bool :=
  match e with
  | HttpPost _ _ _ => true
  | _ => false
  end.

(** Number of submissions. *)
Definition posts (t : trace) : nat := List.length (filter is_post t).

(** The two events every round starts with. *)
Definition round_start (h : headers) (request_id : json) : trace :=
  [Sleep poll_interval; HttpPoll (base_url ++ "/get_result") h request_id].

(** The ways one round, attempt [n], can go; [later] is the run of the
    attempts that follow it.  A round with no download ends the loop with an
    exception (never [HTTPError]) or a message; a round with a download ends
    it with the picture decoded from the bytes downloaded, or with a
    message; a pending round prints the status and leaves the rest to the
    later attempts. *)
Inductive round (w : world) (h : headers) (request_id : json) (n : nat)
    (later : M result) : M result -> Prop :=
| round_raises (c : exn_class) (msg : string) :
    round w h request_id n later
      (round_start h request_id, Raise (Exn c msg))
| round_message (msg : string) :
    round w h request_id n later
      (round_start h request_id, Ok (None, Some msg))
| round_image (url : json) (r : response) (img : image) :
    get_url w url = Reply r ->
    is_error_status (status_code r) = false ->
    image_open w (content r) = Decoded img ->
    round w h request_id n later
      ((round_start h request_id ++ [HttpFetch url])%list, Ok (Some img, None))
| round_download_message (url : json) (msg : string) :
    round w h request_id n later
      ((round_start h request_id ++ [HttpFetch url])%list, Ok (None, Some msg))
| round_pending (text : string) :
    pending (status_query w h request_id n) ->
    round w h request_id n later
      ((round_start h request_id ++ StWrite text :: fst later)%list, snd later).

(** The same remote side, with the HTTP status of the [n]-th status reply
    replaced by [code n]. *)
Definition set_status (code : Z) (r : response) : response :=
  {| status_code := code;
     error_text := error_text r;
     json_body := json_body r;
     content := content r |}.

Definition restatus (code : nat -> Z) (w : world) : world :=
  {| post_generate := post_generate w;
     get_result := fun n url h request_id =>
       match get_result w n url h request_id with
       | Reply r => Reply (set_status (code n) r)
       | NetworkError msg => NetworkError msg
       end;
     get_url := get_url w;
     image_open := image_open w |}.

(** A status reply the loop cannot read, with the text of the exception it
    raises: the query failed on the network, the body is not JSON, or the
    body is an object with no [status] field. *)
Inductive unreadable : http_reply -> string -> Prop :=
| unreadable_network (msg : string) :
    unreadable (NetworkError msg) msg
| unreadable_body (r : response) (text : string) :
    json_body r = inr text ->
    unreadable (Reply r) text
| unreadable_status (r : response) (m : list (string * json)) :
    json_body r = inl (JObj m) ->
    dict_get "status" m = None ->
    unreadable (Reply r) (repr_key "status").

(** The message of the handler inside the [Ready] branch. *)
Definition processing_error (py_repr : json -> string) (text : string)
    (m : list (string * json)) : string :=
  "Error processing API response: " ++ text ++ newline ++ "Response: "
  ++ py_repr (JObj m).

(** Further scripted remote sides. *)
Definition turning (n : nat) (last : response) (download : response) : world :=
  scripted job_accepted
    (fun i => if (i <? n)%nat then still_pending else last)
    download.

Definition unreachable : world :=
  {| post_generate := fun _ _ _ => NetworkError "Connection refused";
     get_result := fun _ _ _ _ => NetworkError "Connection refused";
     get_url := fun _ => NetworkError "Connection refused";
     image_open := fun bytes => Decoded {| pixels := bytes |} |}.

Definition without_download (w : world) : world :=
  {| post_generate := post_generate w;
     get_result := get_result w;
     get_url := fun _ => NetworkError "Read timed out";
     image_open := image_open w |}.

Definition without_decoder (w : world) : world :=
  {| post_generate := post_generate w;
     get_result := get_result w;
     get_url := get_url w;
     image_open := fun _ => Undecodable "cannot identify image file" |}.

Definition fallback_payload : list (string * json) :=
  [("samples", JList [JStr "https://img.example/two.png";
                      JStr "https://img.example/three.png"])].

Definition fallback_body : list (string * json) :=
  [("status", JStr "Ready"); ("result", JObj fallback_payload)].

Definition no_samples_body : list (string * json) :=
  [("status", JStr "Ready"); ("result", JObj [("samples", JList [])])].

(** ** Trace lemmas *)

Lemma polls_app (a b : trace) : polls (a ++ b)%list = (polls a + polls b)%nat.
Proof.
  unfold polls. rewrite filter_app, length_app. reflexivity.
Qed.

Lemma fetched_app (a b : trace) : fetched (a ++ b)%list = (fetched a ++ fetched b)%list.
Proof.
  induction a as [|e a IH]; simpl; [reflexivity|].
  destruct e; simpl; rewrite ?IH; reflexivity.
Qed.

Lemma elapsed_app (a b : trace) : (elapsed (a ++ b)%list == elapsed a + elapsed b)%Q.
Proof.
  induction a as [|e a IH]; simpl.
  - ring.
  - destruct e; try exact IH. rewrite IH. ring.
Qed.

Lemma before_poll_app (a b : trace) :
  before_poll (S (polls a)) (a ++ b)%list = (a ++ before_poll 1 b)%list.
Proof.
  induction a as [|e a IH]; [reflexivity|].
  change ((e :: a) ++ b)%list with (e :: (a ++ b))%list.
  destruct e; unfold polls in *; simpl in *; rewrite IH; reflexivity.
Qed.

Lemma prefix_refl (s : string) : String.prefix s s = true.
Proof.
  induction s as [|c s IH]; simpl; [reflexivity|].
  destruct (ascii_dec c c) as [_|N]; [exact IH|contradiction].
Qed.

Lemma is_infix_unfold (needle hay : string) :
  is_infix needle hay =
  if String.prefix needle hay then true
  else match hay with
       | EmptyString => false
       | String _ hay' => is_infix needle hay'
       end.
Proof.
  destruct hay; reflexivity.
Qed.

Lemma is_infix_app (p s : string) : is_infix s (p ++ s) = true.
Proof.
  induction p as [|c p IH].
  - change ("" ++ s) with s. rewrite is_infix_unfold, prefix_refl. reflexivity.
  - change (String c p ++ s) with (String c (p ++ s)).
    rewrite is_infix_unfold.
    destruct (String.prefix s (String c (p ++ s))); [reflexivity|exact IH].
Qed.

Lemma is_infix_skip (p s t : string) :
  is_infix s t = true -> is_infix s (p ++ t) = true.
Proof.
  intros Ht. induction p as [|c p IH]; [exact Ht|].
  change (String c p ++ t) with (String c (p ++ t)).
  rewrite is_infix_unfold.
  destruct (String.prefix s (String c (p ++ t))); [reflexivity|exact IH].
Qed.

Lemma prefix_app (s rest : string) : String.prefix s (s ++ rest) = true.
Proof.
  induction s as [|c s IH]; simpl; [destruct rest; reflexivity|].
  destruct (ascii_dec c c) as [_|N]; [exact IH|contradiction].
Qed.

Lemma is_infix_mid (p s rest : string) : is_infix s (p ++ s ++ rest) = true.
Proof.
  induction p as [|c p IH].
  - change ("" ++ s ++ rest) with (s ++ rest).
    rewrite is_infix_unfold, prefix_app. reflexivity.
  - change (String c p ++ s ++ rest) with (String c (p ++ s ++ rest)).
    rewrite is_infix_unfold.
    destruct (String.prefix s (String c (p ++ s ++ rest)));
      [reflexivity|exact IH].
Qed.

(** ** Every path returns a proper pair *)

Lemma returns_pair_weaken (m : M result) : returns_pair m -> pair_or_raise m.
Proof.
  intros (r & Hr & Ho). unfold pair_or_raise. rewrite Hr. exact Ho.
Qed.

Lemma ret_returns_pair (r : result) : outcome r -> returns_pair (ret r).
Proof.
  intros Ho. exists r. split; [reflexivity|exact Ho].
Qed.

Lemma bind_pair_or_raise {A : Type} (m : M A) (f : A -> M result) :
  (forall a, pair_or_raise (f a)) -> pair_or_raise (bind m f).
Proof.
  intros Hf. destruct m as [t [a|e]]; unfold pair_or_raise, bind.
  - specialize (Hf a). unfold pair_or_raise in Hf.
    destruct (f a) as [t' r]. exact Hf.
  - exact I.
Qed.

Lemma try_returns_pair (m : M result) (handler : exn -> M result) :
  pair_or_raise m -> (forall e, returns_pair (handler e)) ->
  returns_pair (try_except m handler).
Proof.
  intros Hm Hh. destruct m as [t [r|e]]; unfold try_except.
  - exists r. split; [reflexivity|exact Hm].
  - destruct (Hh e) as (r & Hr & Ho).
    destruct (handler e) as [t' r']. exists r. split; assumption.
Qed.

Lemma failure_prefixed (c : ascii) (s rest : string) :
  outcome (None, Some (String c s ++ rest)).
Proof.
  apply failure. discriminate.
Qed.

Lemma failure_literal (c : ascii) (s : string) :
  outcome (None, Some (String c s)).
Proof.
  apply failure. discriminate.
Qed.

Create HintDb outcomes.
#[local] Hint Resolve failure_prefixed failure_literal success : outcomes.

Section Shape.

Variable py_repr : json -> string.
Variable w : world.

Ltac step := apply bind_pair_or_raise; intros ?.

Lemma poll_loop_pair_or_raise (h : headers) (request_id : json)
    (attempts : list nat) :
  pair_or_raise (poll_loop py_repr w h request_id attempts).
Proof.
  induction attempts as [|n rest IH]; cbn [poll_loop].
  - apply returns_pair_weaken, ret_returns_pair. auto with outcomes.
  - do 4 step.
    destruct (eq_str _ "Ready").
    + apply returns_pair_weaken, try_returns_pair.
      * do 6 step.
        apply returns_pair_weaken, ret_returns_pair. auto with outcomes.
      * intros e. apply ret_returns_pair. auto with outcomes.
    + step. destruct (eq_str _ "Failed").
      * step. apply returns_pair_weaken, ret_returns_pair. auto with outcomes.
      * do 2 step. exact IH.
Qed.

Lemma call_returns_pair (api_key prompt negative_prompt : string)
    (width height : Z) (guidance_scale : Q) (seed : option Z)
    (sampler : string) (steps : Z) :
  returns_pair
    (call_flux_api py_repr w api_key prompt negative_prompt width height
       guidance_scale seed sampler steps).
Proof.
  unfold call_flux_api. cbv zeta. apply try_returns_pair.
  - do 5 step. destruct (negb _).
    + apply returns_pair_weaken, ret_returns_pair. auto with outcomes.
    + do 2 step. apply poll_loop_pair_or_raise.
  - intros [msg r | c msg].
    + apply try_returns_pair.
      * step. apply returns_pair_weaken, ret_returns_pair. auto with outcomes.
      * intros _. apply ret_returns_pair. auto with outcomes.
    + apply ret_returns_pair. auto with outcomes.
Qed.

End Shape.

(** ** The polling loop, round by round *)

Section Loop.

Variable py_repr : json -> string.
Variable w : world.
Variable h : headers.
Variable request_id : json.

Lemma poll_loop_pending (n : nat) (rest : list nat) :
  pending (status_query w h request_id n) ->
  exists text,
    poll_loop py_repr w h request_id (n :: rest) =
    ((Sleep poll_interval
        :: HttpPoll (base_url ++ "/get_result") h request_id
        :: StWrite text
        :: fst (poll_loop py_repr w h request_id rest))%list,
     snd (poll_loop py_repr w h request_id rest)).
Proof.
  intros (m & s & Hs & Hready & Hfailed).
  inversion Hs as [r m' s' Hbody Hstatus Hreply]; subst m' s'.
  unfold status_query in Hreply.
  exists ("Status: " ++ py_str py_repr s).
  cbn [poll_loop].
  unfold requests_get_result, time_sleep, st_write, emit, lift, bind.
  rewrite <- Hreply. cbn [of_reply].
  unfold response_json. rewrite Hbody.
  cbn [py_getitem]. rewrite Hstatus, Hready, Hfailed.
  destruct (poll_loop py_repr w h request_id rest) as [t out].
  reflexivity.
Qed.

(** A run of [j] pending rounds, from attempt [i] on. *)
Lemma poll_loop_run (j i : nat) (rest : list nat) :
  (forall n, (i <= n < i + j)%nat -> pending (status_query w h request_id n)) ->
  exists t0,
    polls t0 = j /\ fetched t0 = [] /\ network_calls t0 = j /\
    (elapsed t0 == inject_Z (Z.of_nat j) * poll_interval)%Q /\
    poll_loop py_repr w h request_id (seq i j ++ rest)%list =
    ((t0 ++ fst (poll_loop py_repr w h request_id rest))%list,
     snd (poll_loop py_repr w h request_id rest)).
Proof.
  revert i. induction j as [|j IH]; intros i Hpending.
  - exists []. repeat split; try reflexivity.
    simpl. destruct (poll_loop py_repr w h request_id rest); reflexivity.
  - destruct (IH (S i)) as (t0 & Hp & Hf & Hn & He & Hrun).
    { intros n Hn. apply Hpending. lia. }
    destruct (poll_loop_pending i (seq (S i) j ++ rest)%list) as [text Hstep].
    { apply Hpending. lia. }
    exists (Sleep poll_interval
              :: HttpPoll (base_url ++ "/get_result") h request_id
              :: StWrite text :: t0)%list.
    repeat split.
    + unfold polls in *. simpl. rewrite Hp. reflexivity.
    + simpl. exact Hf.
    + unfold network_calls in *. simpl. rewrite Hn. reflexivity.
    + cbn [elapsed]. rewrite He, Nat2Z.inj_succ. unfold Z.succ.
      rewrite inject_Z_plus. ring.
    + change (seq i (S j) ++ rest)%list with (i :: (seq (S i) j ++ rest))%list.
      rewrite Hstep, Hrun. reflexivity.
Qed.

(** The attempts of a call split at attempt [n]. *)
Lemma attempts_split (n : nat) :
  (n < max_attempts)%nat ->
  seq 0 max_attempts =
  (seq 0 n ++ n :: seq (S n) (max_attempts - S n))%list.
Proof.
  intros Hn.
  replace max_attempts with (n + S (max_attempts - S n))%nat at 1 by lia.
  rewrite seq_app. reflexivity.
Qed.

(** Pending rounds up to attempt [n], then whatever attempt [n] does. *)
Lemma poll_loop_until (n : nat) (t1 : trace) (out : res result) :
  (n < max_attempts)%nat ->
  (forall i, (i < n)%nat -> pending (status_query w h request_id i)) ->
  poll_loop py_repr w h request_id (n :: seq (S n) (max_attempts - S n)) =
    (t1, out) ->
  exists t0,
    polls t0 = n /\ fetched t0 = [] /\ network_calls t0 = n /\
    (elapsed t0 == inject_Z (Z.of_nat n) * poll_interval)%Q /\
    poll_loop py_repr w h request_id (seq 0 max_attempts) = ((t0 ++ t1)%list, out).
Proof.
  intros Hn Hpending Hlast.
  destruct (poll_loop_run n 0 (n :: seq (S n) (max_attempts - S n)))
    as (t0 & Hp & Hf & Hc & He & Hrun).
  { intros i Hi. apply Hpending. lia. }
  exists t0. repeat split; try assumption.
  rewrite (attempts_split n Hn), Hrun, Hlast. reflexivity.
Qed.

(** *** Rounds that end the loop *)

Ltac open_round Hs :=
  let r := fresh "r" in
  let Hbody := fresh "Hbody" in
  let Hstatus := fresh "Hstatus" in
  let Hreply := fresh "Hreply" in
  inversion Hs as [r ? ? Hbody Hstatus Hreply]; subst;
  unfold status_query in Hreply;
  cbn [poll_loop];
  unfold requests_get_result, requests_get, time_sleep, st_write, emit, lift,
    bind, try_except, ret;
  rewrite <- Hreply; cbn [of_reply];
  unfold response_json; rewrite Hbody;
  cbn [py_getitem]; rewrite Hstatus.

Lemma round_failed (n : nat) (rest : list nat) (m : list (string * json)) :
  status_reply (status_query w h request_id n) m (JStr "Failed") ->
  poll_loop py_repr w h request_id (n :: rest) =
  ([Sleep poll_interval; HttpPoll (base_url ++ "/get_result") h request_id],
   Ok (None,
       Some ("Generation failed: "
             ++ py_str py_repr
                  match dict_get "error" m with
                  | Some v => v
                  | None => JStr "Unknown error"
                  end))).
Proof.
  intros Hs. open_round Hs. reflexivity.
Qed.

Lemma round_ready_no_url (n : nat) (rest : list nat)
    (m inner : list (string * json)) :
  status_reply (status_query w h request_id n) m (JStr "Ready") ->
  dict_get "result" m = Some (JObj inner) ->
  dict_get "sample" inner = None ->
  dict_get "samples" inner = None ->
  poll_loop py_repr w h request_id (n :: rest) =
  ([Sleep poll_interval; HttpPoll (base_url ++ "/get_result") h request_id],
   Ok (None,
       Some ("Error processing API response: " ++ repr_key "samples"
             ++ newline ++ "Response: " ++ py_repr (JObj m)))).
Proof.
  intros Hs Hresult Hsample Hsamples. open_round Hs.
  cbn [eq_str String.eqb Ascii.eqb Bool.eqb].
  rewrite Hresult. cbn [py_contains py_getitem]. rewrite Hsample, Hsamples.
  reflexivity.
Qed.

Lemma round_ready_image (n : nat) (rest : list nat)
    (m inner : list (string * json)) (url : json) (r : response) (img : image) :
  status_reply (status_query w h request_id n) m (JStr "Ready") ->
  dict_get "result" m = Some (JObj inner) ->
  offers_url inner url ->
  get_url w url = Reply r ->
  is_error_status (status_code r) = false ->
  image_open w (content r) = Decoded img ->
  poll_loop py_repr w h request_id (n :: rest) =
  ([Sleep poll_interval; HttpPoll (base_url ++ "/get_result") h request_id;
    HttpFetch url],
   Ok (Some img, None)).
Proof.
  intros Hs Hresult Hurl Hget Hcode Hopen. open_round Hs.
  cbn [eq_str String.eqb Ascii.eqb Bool.eqb].
  rewrite Hresult. cbn [py_contains py_getitem].
  destruct Hurl as [Hsample | others Hsample Hsamples].
  - rewrite Hsample, Hget. cbn [of_reply]. unfold raise_for_status.
    rewrite Hcode, Hopen. reflexivity.
  - rewrite Hsample, Hsamples. cbn [py_first]. rewrite Hget. cbn [of_reply].
    unfold raise_for_status. rewrite Hcode, Hopen. reflexivity.
Qed.

Lemma round_ready_fetch_refused (n : nat) (rest : list nat)
    (m inner : list (string * json)) (url : json) (r : response) :
  status_reply (status_query w h request_id n) m (JStr "Ready") ->
  dict_get "result" m = Some (JObj inner) ->
  offers_url inner url ->
  get_url w url = Reply r ->
  is_error_status (status_code r) = true ->
  poll_loop py_repr w h request_id (n :: rest) =
  ([Sleep poll_interval; HttpPoll (base_url ++ "/get_result") h request_id;
    HttpFetch url],
   Ok (None,
       Some ("Error processing API response: " ++ error_text r
             ++ newline ++ "Response: " ++ py_repr (JObj m)))).
Proof.
  intros Hs Hresult Hurl Hget Hcode. open_round Hs.
  cbn [eq_str String.eqb Ascii.eqb Bool.eqb].
  rewrite Hresult. cbn [py_contains py_getitem].
  destruct Hurl as [Hsample | others Hsample Hsamples].
  - rewrite Hsample, Hget. cbn [of_reply]. unfold raise_for_status.
    rewrite Hcode. reflexivity.
  - rewrite Hsample, Hsamples. cbn [py_first]. rewrite Hget. cbn [of_reply].
    unfold raise_for_status. rewrite Hcode. reflexivity.
Qed.

End Loop.

(** ** A whole call *)

Section Call.

Variable py_repr : json -> string.
Variable w : world.
Variables api_key prompt negative_prompt : string.
Variables width height : Z.
Variable guidance_scale : Q.
Variable seed : option Z.
Variable sampler : string.
Variable steps : Z.

Let h : headers := mk_headers api_key.

Let run : M result :=
  call_flux_api py_repr w api_key prompt negative_prompt width height
    guidance_scale seed sampler steps.

Let submitted : http_reply :=
  submission w api_key prompt negative_prompt width height guidance_scale seed
    sampler steps.

Let opening : trace :=
  [StWrite "Submitting image generation request...";
   HttpPost (base_url ++ "/flux-pro-1.1") h
     (mk_payload prompt negative_prompt width height guidance_scale seed
        sampler steps);
   StWrite "Waiting for image generation..."].

Lemma call_accepted (request_id : json) (t : trace) (out : result) :
  accepted submitted request_id ->
  poll_loop py_repr w h request_id (seq 0 max_attempts) = (t, Ok out) ->
  run = ((opening ++ t)%list, Ok out).
Proof.
  intros Hacc Hloop.
  inversion Hacc as [r m rid Hcode Hbody Hid Hreply]; subst rid.
  unfold submitted, submission in Hreply.
  unfold run, call_flux_api. cbv zeta.
  unfold requests_post, st_write, emit, lift, bind, try_except, ret.
  rewrite <- Hreply. cbn [of_reply].
  unfold raise_for_status, response_json. rewrite Hcode, Hbody.
  cbn [py_contains py_getitem]. rewrite Hid. cbn [negb].
  fold h. rewrite Hloop. reflexivity.
Qed.

(** Pending rounds before attempt [k] (counted from 1), then a round that
    ends the loop. *)
Lemma call_until (k : nat) (request_id : json) (t1 : trace) (out : result) :
  (1 <= k <= max_attempts)%nat ->
  accepted submitted request_id ->
  (forall i, (i < k - 1)%nat -> pending (status_query w h request_id i)) ->
  poll_loop py_repr w h request_id
    ((k - 1) :: seq (S (k - 1)) (max_attempts - S (k - 1))) = (t1, Ok out) ->
  exists t0,
    polls t0 = (k - 1)%nat /\ fetched t0 = [] /\
    (elapsed t0 == inject_Z (Z.of_nat (k - 1)) * poll_interval)%Q /\
    run = ((opening ++ t0 ++ t1)%list, Ok out).
Proof.
  intros Hk Hacc Hpending Hlast.
  destruct (poll_loop_until py_repr w h request_id (k - 1) t1 (Ok out))
    as (t0 & Hp & Hf & _ & He & Hloop); [lia|assumption|assumption|].
  exists t0. repeat split; try assumption.
  apply (call_accepted request_id); assumption.
Qed.

Lemma polls_opening (t0 t1 : trace) :
  polls (opening ++ t0 ++ t1)%list = (polls t0 + polls t1)%nat.
Proof.
  rewrite !polls_app. reflexivity.
Qed.

Lemma fetched_opening (t0 t1 : trace) :
  fetched (opening ++ t0 ++ t1)%list = (fetched t0 ++ fetched t1)%list.
Proof.
  rewrite !fetched_app. reflexivity.
Qed.

(** The time slept before the [k]-th status query, when that query follows
    [k - 1] rounds and one more sleep. *)
Lemma wait_before_query (k : nat) (request_id : json) (t0 rest : trace)
    (url : string) :
  (1 <= k)%nat ->
  polls t0 = (k - 1)%nat ->
  (elapsed t0 == inject_Z (Z.of_nat (k - 1)) * poll_interval)%Q ->
  (elapsed
     (before_poll k
        (opening ++ t0
           ++ Sleep poll_interval :: HttpPoll url h request_id :: rest)%list)
   == inject_Z (Z.of_nat k) * poll_interval)%Q.
Proof.
  intros Hk Hp He.
  rewrite app_assoc.
  replace k with (S (polls (opening ++ t0)%list)) at 1
    by (rewrite polls_app, Hp; unfold polls; simpl; lia).
  rewrite before_poll_app.
  cbn [before_poll is_poll].
  rewrite !elapsed_app, He. cbn [elapsed opening].
  replace (Z.of_nat k) with (Z.of_nat (k - 1) + 1)%Z by lia.
  rewrite inject_Z_plus. ring.
Qed.

(** C1, as amended.  When the [k]-th status reply (k <= 60) is the first
    that is not pending, says [Ready] and has a [sample] URL in its result
    payload, and the download and the decoding succeed, the call downloads
    exactly that URL, returns the decoded picture with no message, has made
    [k] status queries, and has slept [k] times 0.5 time-units before the
    [Ready] query (one sleep precedes every query, the first included).
    Nothing is assumed about a [samples] field: [sample] wins when both are
    there. *)
Theorem ready_sample_returns_image (k : nat) (request_id : json)
    (m inner : list (string * json)) (url : json) (r : response) (img : image) :
  (1 <= k <= max_attempts)%nat ->
  accepted submitted request_id ->
  (forall i, (i < k - 1)%nat -> pending (status_query w h request_id i)) ->
  status_reply (status_query w h request_id (k - 1)) m (JStr "Ready") ->
  dict_get "result" m = Some (JObj inner) ->
  dict_get "sample" inner = Some url ->
  get_url w url = Reply r ->
  is_error_status (status_code r) = false ->
  image_open w (content r) = Decoded img ->
  snd run = Ok (Some img, None) /\
  fetched (fst run) = [url] /\
  polls (fst run) = k /\
  (elapsed (before_poll k (fst run)) == inject_Z (Z.of_nat k) * poll_interval)%Q.
Proof.
  intros Hk Hacc Hpending Hready Hresult Hsample Hget Hcode Hopen.
  destruct (call_until k request_id
              [Sleep poll_interval;
               HttpPoll (base_url ++ "/get_result") h request_id;
               HttpFetch url]
              (Some img, None) Hk Hacc Hpending)
    as (t0 & Hp & Hf & He & Hrun).
  { eapply round_ready_image; eauto using offers_sample. }
  rewrite Hrun. cbn [fst snd]. repeat split.
  - rewrite fetched_opening, Hf. reflexivity.
  - rewrite polls_opening, Hp. unfold polls. simpl. lia.
  - apply wait_before_query; [lia|assumption|assumption].
Qed.

(** C2.  When the submission is accepted and each of the 60 status replies
    is pending (a status other than [Ready] and [Failed]), the call makes
    exactly 60 status queries and returns the message
    "Image generation timed out". *)
Theorem pending_throughout_times_out (request_id : json) :
  accepted submitted request_id ->
  (forall i, (i < max_attempts)%nat ->
             pending (status_query w h request_id i)) ->
  snd run = Ok (None, Some "Image generation timed out") /\
  polls (fst run) = 60%nat.
Proof.
  intros Hacc Hpending.
  destruct (poll_loop_run py_repr w h request_id max_attempts 0 [])
    as (t0 & Hp & _ & _ & _ & Hloop).
  { intros n Hn. apply Hpending. lia. }
  rewrite app_nil_r in Hloop. cbn [poll_loop ret fst snd] in Hloop.
  rewrite (call_accepted request_id _ _ Hacc Hloop). cbn [fst snd].
  split; [reflexivity|].
  rewrite !polls_app, Hp. reflexivity.
Qed.

(** C3.  When the submission is answered with a 2xx status and a JSON object
    that has no [id] field, the call returns the message
    "No request ID in response" and makes no status query: the submission
    is its only HTTP call. *)
Theorem missing_id_stops_before_polling (r : response)
    (m : list (string * json)) :
  submitted = Reply r ->
  (200 <= status_code r < 300)%Z ->
  json_body r = inl (JObj m) ->
  dict_get "id" m = None ->
  snd run = Ok (None, Some "No request ID in response") /\
  polls (fst run) = 0%nat /\
  network_calls (fst run) = 1%nat.
Proof.
  intros Hreply Hcode Hbody Hid.
  unfold submitted, submission in Hreply.
  unfold run, call_flux_api. cbv zeta.
  unfold requests_post, st_write, emit, lift, bind, try_except, ret.
  rewrite Hreply. cbn [of_reply].
  unfold raise_for_status, response_json, is_error_status.
  replace (400 <=? status_code r)%Z with false by (symmetry; apply Z.leb_gt; lia).
  cbn [andb]. rewrite Hbody. cbn [py_contains]. rewrite Hid.
  repeat split.
Qed.

(** C5.  When the first status reply that is not pending says [Ready] and
    its result payload has neither a [sample] nor a [samples] field, the call
    returns no picture and the message
    "Error processing API response: 'samples'" followed by a line
    "Response: " and the printed status payload: the message embeds the text
    of the exception raised (the [KeyError] on [samples]) and the whole
    payload.  Nothing is downloaded. *)
Theorem ready_without_url_reports_payload (k : nat) (request_id : json)
    (m inner : list (string * json)) :
  (1 <= k <= max_attempts)%nat ->
  accepted submitted request_id ->
  (forall i, (i < k - 1)%nat -> pending (status_query w h request_id i)) ->
  status_reply (status_query w h request_id (k - 1)) m (JStr "Ready") ->
  dict_get "result" m = Some (JObj inner) ->
  dict_get "sample" inner = None ->
  dict_get "samples" inner = None ->
  exists msg,
    snd run = Ok (None, Some msg) /\
    msg = "Error processing API response: "
            ++ exn_str (Exn KeyError (repr_key "samples"))
            ++ newline ++ "Response: " ++ py_repr (JObj m) /\
    is_infix (py_repr (JObj m)) msg = true /\
    is_infix (exn_str (Exn KeyError (repr_key "samples"))) msg = true /\
    fetched (fst run) = [].
Proof.
  intros Hk Hacc Hpending Hready Hresult Hsample Hsamples.
  destruct (call_until k request_id _ _ Hk Hacc Hpending
              (round_ready_no_url py_repr w h request_id (k - 1) _ m inner
                 Hready Hresult Hsample Hsamples))
    as (t0 & Hp & Hf & He & Hrun).
  rewrite Hrun. cbn [fst snd exn_str].
  eexists. split; [reflexivity|]. split; [reflexivity|].
  split; [|split].
  - do 3 apply is_infix_skip. apply is_infix_app.
  - apply is_infix_mid.
  - rewrite fetched_opening, Hf. reflexivity.
Qed.

(** C6.  When the first status reply that is not pending says [Failed], the
    call returns no picture and a message: "Generation failed: " followed by
    the value of the reply's [error] field when it has one (so the message
    contains that value), and "Generation failed: Unknown error" when it has
    none.  That reply is the last one asked for: the call has made [k]
    status queries and no download. *)
Theorem failed_status_reports_error (k : nat) (request_id : json)
    (m : list (string * json)) :
  (1 <= k <= max_attempts)%nat ->
  accepted submitted request_id ->
  (forall i, (i < k - 1)%nat -> pending (status_query w h request_id i)) ->
  status_reply (status_query w h request_id (k - 1)) m (JStr "Failed") ->
  exists msg,
    snd run = Ok (None, Some msg) /\
    polls (fst run) = k /\
    fetched (fst run) = [] /\
    (forall v, dict_get "error" m = Some v ->
               msg = "Generation failed: " ++ py_str py_repr v /\
               is_infix (py_str py_repr v) msg = true) /\
    (dict_get "error" m = None ->
     msg = "Generation failed: Unknown error" /\
     is_infix "Unknown error" msg = true).
Proof.
  intros Hk Hacc Hpending Hfailed.
  destruct (call_until k request_id _ _ Hk Hacc Hpending
              (round_failed py_repr w h request_id (k - 1) _ m Hfailed))
    as (t0 & Hp & Hf & He & Hrun).
  rewrite Hrun. cbn [fst snd].
  eexists. split; [reflexivity|]. split; [|split; [|split]].
  - rewrite polls_opening, Hp. unfold polls. simpl. lia.
  - rewrite fetched_opening, Hf. reflexivity.
  - intros v Herror. rewrite Herror. split; [reflexivity|apply is_infix_app].
  - intros Herror. rewrite Herror. split; reflexivity.
Qed.

(** C8, as amended.  When the submission is answered with a 4xx or 5xx
    status (the statuses [raise_for_status] raises for), the call returns no
    picture and the message "API Error: " followed by the decoded JSON body
    when the body decodes, and by the text of the [HTTPError] otherwise; it
    makes no status query. *)
Theorem error_status_submission_reports_api_error (r : response) :
  submitted = Reply r ->
  (400 <= status_code r < 600)%Z ->
  snd run =
    Ok (None,
        Some ("API Error: "
              ++ match json_body r with
                 | inl error_detail => py_str py_repr error_detail
                 | inr _ => error_text r
                 end)) /\
  polls (fst run) = 0%nat /\
  network_calls (fst run) = 1%nat.
Proof.
  intros Hreply Hcode.
  unfold submitted, submission in Hreply.
  unfold run, call_flux_api. cbv zeta.
  unfold requests_post, st_write, emit, lift, bind.
  rewrite Hreply. cbn [of_reply].
  unfold raise_for_status, is_error_status.
  replace (400 <=? status_code r)%Z with true by (symmetry; apply Z.leb_le; lia).
  replace (status_code r <? 600)%Z with true by (symmetry; apply Z.ltb_lt; lia).
  cbn [andb]. unfold try_except, response_json, ret.
  destruct (json_body r) as [error_detail | text]; repeat split.
Qed.

(** C9.  Whatever the arguments and whatever the remote side answers, the
    call returns, and returns one of two pairs: a picture with no message,
    or no picture with a message (which is not empty); never both, never
    neither. *)
Theorem call_returns_image_or_message :
  exists t image error,
    run = (t, Ok (image, error)) /\
    ((exists img, image = Some img /\ error = None) \/
     (exists msg, image = None /\ error = Some msg /\ msg <> "")) /\
    ~ (image <> None /\ error <> None) /\
    ~ (image = None /\ error = None).
Proof.
  destruct (call_returns_pair py_repr w api_key prompt negative_prompt width
              height guidance_scale seed sampler steps) as (r & Hr & Ho).
  fold run in Hr. destruct run as [t out]. cbn [snd] in Hr. subst out.
  destruct Ho as [img | msg Hmsg].
  - exists t, (Some img), None. repeat split.
    + left. exists img. split; reflexivity.
    + intros [_ Hn]. apply Hn. reflexivity.
    + intros [Hn _]. discriminate Hn.
  - exists t, None, (Some msg). repeat split.
    + right. exists msg. repeat split. exact Hmsg.
    + intros [Hn _]. apply Hn. reflexivity.
    + intros [_ Hn]. discriminate Hn.
Qed.

(** C10, as amended.  When the first status reply that is not pending says
    [Ready] and the download of the picture is answered with a 4xx or 5xx
    status, the call returns no picture and the message
    "Error processing API response: " followed by the text of the
    [HTTPError], a line break, "Response: " and the printed status payload:
    the handler inside the [Ready] branch catches the error, so the message
    does not have the "API Error: " form of the outer handler. *)
Theorem error_status_download_reports_processing_error (k : nat)
    (request_id : json) (m inner : list (string * json)) (url : json)
    (r : response) :
  (1 <= k <= max_attempts)%nat ->
  accepted submitted request_id ->
  (forall i, (i < k - 1)%nat -> pending (status_query w h request_id i)) ->
  status_reply (status_query w h request_id (k - 1)) m (JStr "Ready") ->
  dict_get "result" m = Some (JObj inner) ->
  offers_url inner url ->
  get_url w url = Reply r ->
  (400 <= status_code r < 600)%Z ->
  snd run =
    Ok (None,
        Some ("Error processing API response: " ++ error_text r
              ++ newline ++ "Response: " ++ py_repr (JObj m))) /\
  String.prefix "API Error: "
    ("Error processing API response: " ++ error_text r
     ++ newline ++ "Response: " ++ py_repr (JObj m)) = false /\
  fetched (fst run) = [url].
Proof.
  intros Hk Hacc Hpending Hready Hresult Hurl Hget Hcode.
  assert (Herr : is_error_status (status_code r) = true).
  { unfold is_error_status. apply andb_true_intro.
    split; [apply Z.leb_le|apply Z.ltb_lt]; lia. }
  destruct (call_until k request_id _ _ Hk Hacc Hpending
              (round_ready_fetch_refused py_repr w h request_id (k - 1) _ m
                 inner url r Hready Hresult Hurl Hget Herr))
    as (t0 & Hp & Hf & He & Hrun).
  rewrite Hrun. cbn [fst snd]. repeat split.
  rewrite fetched_opening, Hf. reflexivity.
Qed.

End Call.

(** ** The page script *)

(** C4.  The size chosen from the aspect ratio depends on the label alone
    (no remote side, no printing routine takes part); each of the five
    labels gives its own pair, and whatever the label, the pair is one of
    those five. *)
Theorem aspect_size_presets :
  aspect_size "Square (1:1)" = (1024, 1024)%Z /\
  aspect_size "Portrait (3:4)" = (768, 1024)%Z /\
  aspect_size "Landscape (4:3)" = (1024, 768)%Z /\
  aspect_size "Wide (16:9)" = (1024, 576)%Z /\
  aspect_size "Tall (9:16)" = (576, 1024)%Z /\
  forall aspect_ratio : string,
    In (aspect_size aspect_ratio)
       [(1024, 1024); (768, 1024); (1024, 768); (1024, 576); (576, 1024)]%Z.
Proof.
  do 5 (split; [reflexivity|]).
  intros aspect_ratio. unfold aspect_size.
  destruct (String.eqb aspect_ratio "Square (1:1)"); [simpl; tauto|].
  destruct (String.eqb aspect_ratio "Portrait (3:4)"); [simpl; tauto|].
  destruct (String.eqb aspect_ratio "Landscape (4:3)"); [simpl; tauto|].
  destruct (String.eqb aspect_ratio "Wide (16:9)"); simpl; tauto.
Qed.

(** C7.  With an empty prompt, pressing the button shows the error
    "Please enter a prompt first!" and does nothing else: the trace has that
    one event, so [call_flux_api] did not run and no HTTP call was made,
    whatever the other fields hold and whatever the remote side would
    answer. *)
Theorem empty_prompt_makes_no_call (py_repr : json -> string) (w : world)
    (api_key negative_prompt aspect_ratio : string) (guidance_scale : Q)
    (seed : option Z) (sampler : string) (steps : Z) :
  generate_pressed py_repr w api_key "" negative_prompt aspect_ratio
    guidance_scale seed sampler steps
  = ([StError "Please enter a prompt first!"], Ok tt) /\
  network_calls
    (fst (generate_pressed py_repr w api_key "" negative_prompt aspect_ratio
            guidance_scale seed sampler steps)) = 0%nat.
Proof.
  unfold generate_pressed.
  destruct (aspect_size aspect_ratio) as [width height].
  split; reflexivity.
Qed.

(** ** Closed instances *)

Ltac show_accepted :=
  eapply accepted_intro; reflexivity.

Ltac show_status :=
  eapply status_reply_intro; reflexivity.

Ltac show_pending :=
  eexists _, _; split; [show_status | split; reflexivity].

(** An instance of C1: two pending replies, then [Ready] on the third
    attempt, with a [samples] list beside the [sample]. *)
Lemma ready_sample_returns_image_witness :
  let run :=
    call_flux_api repr_sketch (ready_at 2 picture_bytes) "key" "a clock" ""
      1024 1024 3 None "euler_a" 28 in
  snd run = Ok (Some {| pixels := "PNG" |}, None) /\
  fetched (fst run) = [JStr "https://img.example/one.png"] /\
  polls (fst run) = 3%nat /\
  (elapsed (before_poll 3 (fst run)) == inject_Z (Z.of_nat 3) * poll_interval)%Q.
Proof.
  apply (ready_sample_returns_image repr_sketch (ready_at 2 picture_bytes)
           "key" "a clock" "" 1024 1024 3 None "euler_a" 28
           3 (JStr "job-1") ready_body ready_payload
           (JStr "https://img.example/one.png") picture_bytes
           {| pixels := "PNG" |}).
  - unfold max_attempts. lia.
  - show_accepted.
  - intros i Hi. destruct i as [|[|i]]; [show_pending|show_pending|simpl in Hi; lia].
  - show_status.
  - reflexivity.
  - reflexivity.
  - reflexivity.
  - reflexivity.
  - reflexivity.
Defined.

(** Against C1 as worded: with [Ready] on the first attempt the call has
    already slept 0.5 time-units before that query, not (1 - 1) times 0.5. *)
Lemma ready_first_query_has_waited :
  let run :=
    call_flux_api repr_sketch (ready_at 0 picture_bytes) "key" "a clock" ""
      1024 1024 3 None "euler_a" 28 in
  snd run = Ok (Some {| pixels := "PNG" |}, None) /\
  fetched (fst run) = [JStr "https://img.example/one.png"] /\
  polls (fst run) = 1%nat /\
  (elapsed (before_poll 1 (fst run)) == 1 # 2)%Q /\
  ~ (elapsed (before_poll 1 (fst run))
     == inject_Z (Z.of_nat (1 - 1)) * poll_interval)%Q.
Proof.
  vm_compute. repeat split; try reflexivity. intros H. discriminate H.
Qed.

(** An instance of C2. *)
Lemma pending_throughout_times_out_witness :
  let run :=
    call_flux_api repr_sketch (never_ready job_accepted) "key" "a clock" ""
      1024 1024 3 None "euler_a" 28 in
  snd run = Ok (None, Some "Image generation timed out") /\
  polls (fst run) = 60%nat.
Proof.
  apply (pending_throughout_times_out repr_sketch (never_ready job_accepted)
           "key" "a clock" "" 1024 1024 3 None "euler_a" 28 (JStr "job-1")).
  - show_accepted.
  - intros i _. show_pending.
Defined.

(** An instance of C3. *)
Lemma missing_id_stops_before_polling_witness :
  let run :=
    call_flux_api repr_sketch (never_ready (json_reply 200 "" (JObj no_id_body)))
      "key" "a clock" "" 1024 1024 3 None "euler_a" 28 in
  snd run = Ok (None, Some "No request ID in response") /\
  polls (fst run) = 0%nat /\
  network_calls (fst run) = 1%nat.
Proof.
  apply (missing_id_stops_before_polling repr_sketch
           (never_ready (json_reply 200 "" (JObj no_id_body)))
           "key" "a clock" "" 1024 1024 3 None "euler_a" 28
           (json_reply 200 "" (JObj no_id_body)) no_id_body).
  - reflexivity.
  - simpl. lia.
  - reflexivity.
  - reflexivity.
Defined.

(** An instance of C5: [Ready] on the second attempt, with a result payload
    that has a [seed] and nothing else. *)
Lemma ready_without_url_reports_payload_witness :
  let run :=
    call_flux_api repr_sketch (failing_at 1 empty_ready_body) "key" "a clock" ""
      1024 1024 3 None "euler_a" 28 in
  exists msg,
    snd run = Ok (None, Some msg) /\
    msg = "Error processing API response: "
            ++ exn_str (Exn KeyError (repr_key "samples"))
            ++ newline ++ "Response: " ++ repr_sketch (JObj empty_ready_body) /\
    is_infix (repr_sketch (JObj empty_ready_body)) msg = true /\
    is_infix (exn_str (Exn KeyError (repr_key "samples"))) msg = true /\
    fetched (fst run) = [].
Proof.
  apply (ready_without_url_reports_payload repr_sketch
           (failing_at 1 empty_ready_body)
           "key" "a clock" "" 1024 1024 3 None "euler_a" 28
           2 (JStr "job-1") empty_ready_body [("seed", JNum 7)]).
  - unfold max_attempts. lia.
  - show_accepted.
  - intros i Hi. destruct i as [|i]; [show_pending|simpl in Hi; lia].
  - show_status.
  - reflexivity.
  - reflexivity.
  - reflexivity.
Defined.

(** An instance of C6: [Failed] on the second attempt, with the error
    "bad prompt". *)
Lemma failed_status_reports_error_witness :
  let run :=
    call_flux_api repr_sketch (failing_at 1 failed_body) "key" "a clock" ""
      1024 1024 3 None "euler_a" 28 in
  exists msg,
    snd run = Ok (None, Some msg) /\
    polls (fst run) = 2%nat /\
    fetched (fst run) = [] /\
    (forall v, dict_get "error" failed_body = Some v ->
               msg = "Generation failed: " ++ py_str repr_sketch v /\
               is_infix (py_str repr_sketch v) msg = true) /\
    (dict_get "error" failed_body = None ->
     msg = "Generation failed: Unknown error" /\
     is_infix "Unknown error" msg = true).
Proof.
  apply (failed_status_reports_error repr_sketch (failing_at 1 failed_body)
           "key" "a clock" "" 1024 1024 3 None "euler_a" 28
           2 (JStr "job-1") failed_body).
  - unfold max_attempts. lia.
  - show_accepted.
  - intros i Hi. destruct i as [|i]; [show_pending|simpl in Hi; lia].
  - show_status.
Defined.

(** An instance of C8: a 422 answer with a JSON body. *)
Lemma error_status_submission_reports_api_error_witness :
  let run :=
    call_flux_api repr_sketch (never_ready unprocessable) "key" "a clock" ""
      1024 1024 3 None "euler_a" 28 in
  snd run =
    Ok (None,
        Some ("API Error: "
              ++ match json_body unprocessable with
                 | inl error_detail => py_str repr_sketch error_detail
                 | inr _ => error_text unprocessable
                 end)) /\
  polls (fst run) = 0%nat /\
  network_calls (fst run) = 1%nat.
Proof.
  apply (error_status_submission_reports_api_error repr_sketch
           (never_ready unprocessable)
           "key" "a clock" "" 1024 1024 3 None "euler_a" 28 unprocessable).
  - reflexivity.
  - simpl. lia.
Defined.

(** Against C8 as worded: a submission answered with status 300, which is
    not 2xx, and a body with an [id] is treated as accepted; the call goes
    on to make its 60 status queries and returns the timeout message, not an
    "API Error". *)
Lemma status_300_submission_is_polled :
  let run :=
    call_flux_api repr_sketch (never_ready job_accepted_300) "key" "a clock" ""
      1024 1024 3 None "euler_a" 28 in
  submission (never_ready job_accepted_300) "key" "a clock" "" 1024 1024 3 None
    "euler_a" 28 = Reply job_accepted_300 /\
  ~ (200 <= status_code job_accepted_300 < 300)%Z /\
  polls (fst run) = 60%nat /\
  snd run = Ok (None, Some "Image generation timed out").
Proof.
  vm_compute. repeat split; try reflexivity. intros [_ H]. discriminate H.
Qed.

(** An instance of C10: the download is answered with 404. *)
Lemma error_status_download_reports_processing_error_witness :
  let run :=
    call_flux_api repr_sketch (ready_at 1 not_found) "key" "a clock" ""
      1024 1024 3 None "euler_a" 28 in
  snd run =
    Ok (None,
        Some ("Error processing API response: " ++ error_text not_found
              ++ newline ++ "Response: " ++ repr_sketch (JObj ready_body))) /\
  String.prefix "API Error: "
    ("Error processing API response: " ++ error_text not_found
     ++ newline ++ "Response: " ++ repr_sketch (JObj ready_body)) = false /\
  fetched (fst run) = [JStr "https://img.example/one.png"].
Proof.
  apply (error_status_download_reports_processing_error repr_sketch
           (ready_at 1 not_found)
           "key" "a clock" "" 1024 1024 3 None "euler_a" 28
           2 (JStr "job-1") ready_body ready_payload
           (JStr "https://img.example/one.png") not_found).
  - unfold max_attempts. lia.
  - show_accepted.
  - intros i Hi. destruct i as [|i]; [show_pending|simpl in Hi; lia].
  - show_status.
  - reflexivity.
  - apply offers_sample. reflexivity.
  - reflexivity.
  - simpl. lia.
Defined.

(** Against C10 as worded: a download answered with status 300, which is
    not 2xx, raises nothing; its body is decoded and the call returns the
    picture, not an error. *)
Lemma status_300_download_returns_image :
  let run :=
    call_flux_api repr_sketch (ready_at 0 picture_bytes_300) "key" "a clock" ""
      1024 1024 3 None "euler_a" 28 in
  get_url (ready_at 0 picture_bytes_300) (JStr "https://img.example/one.png")
    = Reply picture_bytes_300 /\
  ~ (200 <= status_code picture_bytes_300 < 300)%Z /\
  fetched (fst run) = [JStr "https://img.example/one.png"] /\
  snd run = Ok (Some {| pixels := "PNG" |}, None).
Proof.
  vm_compute. repeat split; try reflexivity. intros [_ H]. discriminate H.
Qed.

(** ** One round, whatever the remote side answers *)

Section Rounds.

Variable py_repr : json -> string.
Variable w : world.
Variable h : headers.
Variable request_id : json.

Lemma poll_loop_round (n : nat) (rest : list nat) :
  round w h request_id n (poll_loop py_repr w h request_id rest)
    (poll_loop py_repr w h request_id (n :: rest)).
Proof.
  cbn [poll_loop].
  unfold requests_get_result, time_sleep, st_write, emit, lift, bind.
  destruct (get_result w n (base_url ++ "/get_result") h request_id)
    as [reply | msg] eqn:Hreply; cbn [of_reply]; [|apply round_raises].
  unfold response_json.
  destruct (json_body reply) as [result | msg] eqn:Hbody; [|apply round_raises].
  destruct result as [| b | z | x | s | l | m]; cbn [py_getitem];
    try apply round_raises.
  destruct (dict_get "status" m) as [status|] eqn:Hstatus;
    [|apply round_raises].
  destruct (eq_str status "Ready") eqn:Hready.
  - unfold try_except, requests_get, emit, lift, bind, ret.
    destruct (dict_get "result" m) as [inner|]; [|apply round_message].
    destruct (py_contains "sample" inner) as [[|]|e];
      [| |apply round_message].
    + destruct (py_getitem inner "sample") as [url|e]; [|apply round_message].
      destruct (get_url w url) as [r|msg] eqn:Hget; cbn [of_reply];
        [|apply round_download_message].
      unfold raise_for_status.
      destruct (is_error_status (status_code r)) eqn:Hcode;
        [apply round_download_message|].
      destruct (image_open w (content r)) as [img|msg] eqn:Hopen;
        cbn [of_decoded];
        [eapply round_image; eassumption|apply round_download_message].
    + destruct (py_getitem inner "samples") as [samples|e];
        [|apply round_message].
      destruct (py_first samples) as [url|e]; [|apply round_message].
      destruct (get_url w url) as [r|msg] eqn:Hget; cbn [of_reply];
        [|apply round_download_message].
      unfold raise_for_status.
      destruct (is_error_status (status_code r)) eqn:Hcode;
        [apply round_download_message|].
      destruct (image_open w (content r)) as [img|msg] eqn:Hopen;
        cbn [of_decoded];
        [eapply round_image; eassumption|apply round_download_message].
  - destruct (eq_str status "Failed") eqn:Hfailed.
    + cbn [py_get]. apply round_message.
    + destruct (poll_loop py_repr w h request_id rest) as [t out] eqn:Hlater.
      apply (round_pending w h request_id n (t, out)).
      exists m, status. split; [|split; assumption].
      unfold status_query. rewrite Hreply.
      apply status_reply_intro; assumption.
Qed.

End Rounds.

(** ** What every run of the loop keeps *)

Lemma network_calls_split (t : trace) :
  network_calls t = (posts t + polls t + List.length (fetched t))%nat.
Proof.
  unfold network_calls, posts, polls.
  induction t as [|e t IH]; [reflexivity|].
  destruct e; simpl; rewrite IH; lia.
Qed.

Lemma posts_app (a b : trace) : posts (a ++ b)%list = (posts a + posts b)%nat.
Proof.
  unfold posts. rewrite filter_app, length_app. reflexivity.
Qed.

Lemma interval_succ (p : nat) :
  (poll_interval + inject_Z (Z.of_nat p) * poll_interval
   == inject_Z (Z.of_nat (S p)) * poll_interval)%Q.
Proof.
  rewrite Nat2Z.inj_succ. unfold Z.succ. rewrite inject_Z_plus. ring.
Qed.

Section Invariants.

Variable py_repr : json -> string.
Variable w : world.
Variable h : headers.
Variable request_id : json.

Let loop (attempts : list nat) : M result :=
  poll_loop py_repr w h request_id attempts.

(** One sleep for every status query, no more queries than attempts, and no
    submission. *)
Lemma poll_loop_budget (attempts : list nat) :
  (polls (fst (loop attempts)) <= List.length attempts)%nat /\
  posts (fst (loop attempts)) = 0%nat /\
  (elapsed (fst (loop attempts))
   == inject_Z (Z.of_nat (polls (fst (loop attempts)))) * poll_interval)%Q.
Proof.
  induction attempts as [|n rest IH].
  - split; [cbn; lia|split; [reflexivity|vm_compute; reflexivity]].
  - destruct IH as (Hp & Hs & He).
    pose proof (poll_loop_round py_repr w h request_id n rest) as Hround.
    fold (loop rest) in Hround. fold (loop (n :: rest)) in Hround.
    inversion Hround as [c msg Hcur | msg Hcur | url r img _ _ _ Hcur
                        | url msg Hcur | text _ Hcur];
      cbn [fst snd List.length];
      try (split; [cbn; lia|split; [reflexivity|vm_compute; reflexivity]]).
    unfold polls, posts in *.
    cbn [fst snd filter is_poll is_post List.length elapsed].
    split; [lia|split; [exact Hs|]].
    rewrite He. apply interval_succ.
Qed.

(** A download, when there is one, is the last event of the loop, and
    nothing is downloaded before it. *)
Lemma poll_loop_download (attempts : list nat) :
  fetched (fst (loop attempts)) = [] \/
  exists before url,
    fst (loop attempts) = (before ++ [HttpFetch url])%list /\
    fetched before = [].
Proof.
  induction attempts as [|n rest IH]; [left; reflexivity|].
  pose proof (poll_loop_round py_repr w h request_id n rest) as Hround.
  fold (loop rest) in Hround. fold (loop (n :: rest)) in Hround.
  inversion Hround as [c msg Hcur | msg Hcur | url r img _ _ _ Hcur
                      | url msg Hcur | text _ Hcur];
    cbn [fst snd].
  - left. reflexivity.
  - left. reflexivity.
  - right. exists (round_start h request_id), url. split; reflexivity.
  - right. exists (round_start h request_id), url. split; reflexivity.
  - destruct IH as [Hnone | (before & url & Hsplit & Hbefore)].
    + left. exact Hnone.
    + right.
      exists (round_start h request_id ++ StWrite text :: before)%list, url.
      split; [rewrite Hsplit; reflexivity|exact Hbefore].
Qed.

(** A picture comes out of the loop only as the decoding of the bytes of the
    one download, which was answered with no error status. *)
Lemma poll_loop_image (attempts : list nat) (img : image) :
  snd (loop attempts) = Ok (Some img, None) ->
  exists before url r,
    fst (loop attempts) = (before ++ [HttpFetch url])%list /\
    fetched before = [] /\
    get_url w url = Reply r /\
    is_error_status (status_code r) = false /\
    image_open w (content r) = Decoded img.
Proof.
  induction attempts as [|n rest IH]; [discriminate|].
  pose proof (poll_loop_round py_repr w h request_id n rest) as Hround.
  fold (loop rest) in Hround. fold (loop (n :: rest)) in Hround.
  inversion Hround as [c msg Hcur | msg Hcur | url r img' Hget Hcode Hopen Hcur
                      | url msg Hcur | text _ Hcur];
    cbn [fst snd]; try discriminate.
  - intros Himg. injection Himg as ->.
    exists (round_start h request_id), url, r. repeat split; assumption.
  - intros Himg. destruct (IH Himg) as (before & url & r & Hsplit & Hrest).
    exists (round_start h request_id ++ StWrite text :: before)%list, url, r.
    split; [rewrite Hsplit; reflexivity|exact Hrest].
Qed.

(** The loop never lets an [HTTPError] out. *)
Lemma poll_loop_raises (attempts : list nat) (e : exn) :
  snd (loop attempts) = Raise e -> exists c msg, e = Exn c msg.
Proof.
  induction attempts as [|n rest IH]; [discriminate|].
  pose proof (poll_loop_round py_repr w h request_id n rest) as Hround.
  fold (loop rest) in Hround. fold (loop (n :: rest)) in Hround.
  inversion Hround as [c msg Hcur | msg Hcur | url r img' Hget Hcode Hopen Hcur
                      | url msg Hcur | text _ Hcur];
    cbn [fst snd]; try discriminate.
  - intros Hraise. injection Hraise as <-. exists c, msg. reflexivity.
  - exact IH.
Qed.

End Invariants.

(** ** What every call keeps *)

Section Whole.

Variable py_repr : json -> string.
Variable w : world.
Variables api_key prompt negative_prompt : string.
Variables width height : Z.
Variable guidance_scale : Q.
Variable seed : option Z.
Variable sampler : string.
Variable steps : Z.

Let h : headers := mk_headers api_key.

Let p : payload :=
  mk_payload prompt negative_prompt width height guidance_scale seed sampler
    steps.

Let run : M result :=
  call_flux_api py_repr w api_key prompt negative_prompt width height
    guidance_scale seed sampler steps.

Let submitted : http_reply :=
  submission w api_key prompt negative_prompt width height guidance_scale seed
    sampler steps.

Let loop (request_id : json) : M result :=
  poll_loop py_repr w h request_id (seq 0 max_attempts).

Let submitting : trace :=
  [StWrite "Submitting image generation request...";
   HttpPost (base_url ++ "/flux-pro-1.1") h p].

(** A call stops at the submission with a message, or the submission is
    accepted and the call is the loop, with any exception the loop lets out
    turned into an "Unexpected error" message. *)
Lemma call_shape :
  (exists msg, run = (submitting, Ok (None, Some msg))) \/
  (exists request_id,
     accepted submitted request_id /\
     run =
     ((submitting ++ StWrite "Waiting for image generation..."
         :: fst (loop request_id))%list,
      match snd (loop request_id) with
      | Ok r => Ok r
      | Raise e => Ok (None, Some ("Unexpected error: " ++ exn_str e))
      end)).
Proof.
  unfold run, call_flux_api. cbv zeta. fold h. fold p.
  unfold requests_post, st_write, emit, lift, bind, try_except, ret.
  destruct (post_generate w (base_url ++ "/flux-pro-1.1") h p)
    as [r | msg] eqn:Hreply; cbn [of_reply];
    [|left; eexists; reflexivity].
  unfold raise_for_status.
  destruct (is_error_status (status_code r)) eqn:Hcode.
  { unfold response_json.
    destruct (json_body r); left; eexists; reflexivity. }
  unfold response_json.
  destruct (json_body r) as [v | msg] eqn:Hbody;
    [|left; eexists; reflexivity].
  destruct v as [| b | z | x | s | l | m]; cbn [py_contains negb];
    try (left; eexists; reflexivity).
  - destruct (is_infix "id" s); left; eexists; reflexivity.
  - destruct (existsb (fun x => eq_str x "id") l); left; eexists; reflexivity.
  - cbn [py_getitem].
    destruct (dict_get "id" m) as [request_id|] eqn:Hid; cbn [negb];
      [|left; eexists; reflexivity].
    right. exists request_id. split.
    { unfold submitted, submission. fold h. fold p. rewrite Hreply.
      eapply accepted_intro; eassumption. }
    fold (loop request_id).
    destruct (loop request_id) as [t [out | e]] eqn:Hloop; cbn [fst snd];
      [reflexivity|].
    destruct (poll_loop_raises py_repr w h request_id (seq 0 max_attempts) e)
      as (c & msg & ->).
    { fold (loop request_id). rewrite Hloop. reflexivity. }
    rewrite app_nil_r. reflexivity.
Qed.

(** X1.  Whatever the remote side answers, a call sleeps 0.5 time-units once
    for every status query it makes and makes at most 60 of them, so it
    never waits more than 30 time-units in all. *)
Theorem call_waits_half_unit_per_query :
  (polls (fst run) <= 60)%nat /\
  (elapsed (fst run)
   == inject_Z (Z.of_nat (polls (fst run))) * poll_interval)%Q /\
  (elapsed (fst run) <= 30)%Q.
Proof.
  assert (Hboth :
    (polls (fst run) <= 60)%nat /\
    (elapsed (fst run)
     == inject_Z (Z.of_nat (polls (fst run))) * poll_interval)%Q).
  { destruct call_shape as [(msg & ->) | (request_id & _ & ->)].
    - split; [cbn; lia|vm_compute; reflexivity].
    - destruct (poll_loop_budget py_repr w h request_id (seq 0 max_attempts))
        as (Hp & _ & He).
      fold (loop request_id) in Hp, He. rewrite length_seq in Hp.
      cbn [fst]. unfold polls in *.
      cbn [submitting app filter is_poll elapsed].
      split; [exact Hp|exact He]. }
  destruct Hboth as (Hp & He). split; [exact Hp|split; [exact He|]].
  rewrite He. unfold Qle, poll_interval. cbn. lia.
Qed.

(** X2.  Every call starts by announcing and sending the one submission,
    with the API key in the [x-key] header and the arguments as the JSON
    body; nothing after it is a submission, at most one URL is downloaded,
    and the call makes at most 62 HTTP calls. *)
Theorem call_submits_once :
  exists tail,
    fst run =
      (StWrite "Submitting image generation request..."
       :: HttpPost (base_url ++ "/flux-pro-1.1") (mk_headers api_key)
            (mk_payload prompt negative_prompt width height guidance_scale
               seed sampler steps)
       :: tail)%list /\
    posts tail = 0%nat /\
    (List.length (fetched (fst run)) <= 1)%nat /\
    (network_calls (fst run) <= 62)%nat.
Proof.
  destruct call_shape as [(msg & Hrun) | (request_id & _ & Hrun)].
  - exists []. rewrite Hrun. cbn. repeat split; lia.
  - exists (StWrite "Waiting for image generation..." :: fst (loop request_id)).
    destruct (poll_loop_budget py_repr w h request_id (seq 0 max_attempts))
      as (Hp & Hs & _).
    fold (loop request_id) in Hp, Hs. rewrite length_seq in Hp.
    assert (Hf : (List.length (fetched (fst (loop request_id))) <= 1)%nat).
    { destruct (poll_loop_download py_repr w h request_id (seq 0 max_attempts))
        as [Hnone | (before & url & Hsplit & Hbefore)];
        fold (loop request_id) in *.
      - rewrite Hnone. cbn. lia.
      - rewrite Hsplit, fetched_app, Hbefore. cbn. lia. }
    rewrite Hrun. cbn [fst]. split; [reflexivity|].
    split; [exact Hs|]. split; [exact Hf|].
    rewrite network_calls_split.
    unfold posts, polls in *.
    cbn [submitting app filter is_post is_poll fetched List.length].
    rewrite Hs. unfold max_attempts in Hp. lia.
Qed.

(** X3.  When a call returns a picture, it has downloaded exactly one URL,
    the download is the last thing it did, the download was answered with no
    error status, and the picture is the decoding of the bytes of that
    answer. *)
Theorem returned_image_is_the_download (img : image) :
  snd run = Ok (Some img, None) ->
  exists before url r,
    fst run = (before ++ [HttpFetch url])%list /\
    fetched before = [] /\
    get_url w url = Reply r /\
    is_error_status (status_code r) = false /\
    image_open w (content r) = Decoded img.
Proof.
  destruct call_shape as [(msg & ->) | (request_id & _ & ->)]; cbn [fst snd].
  - discriminate.
  - intros Himg.
    destruct (poll_loop_image py_repr w h request_id (seq 0 max_attempts) img)
      as (before & url & r & Hsplit & Hrest).
    { fold (loop request_id).
      destruct (snd (loop request_id)); [exact Himg|discriminate]. }
    fold (loop request_id) in Hsplit.
    exists (submitting ++ StWrite "Waiting for image generation..." :: before)%list,
      url, r.
    split; [rewrite Hsplit; reflexivity|exact Hrest].
Qed.

End Whole.

(** ** Rounds that fail *)

Ltac enter_ready Hs :=
  let r := fresh "r" in
  let Hbody := fresh "Hbody" in
  let Hstatus := fresh "Hstatus" in
  let Hreply := fresh "Hreply" in
  inversion Hs as [r ? ? Hbody Hstatus Hreply]; subst;
  unfold status_query in Hreply;
  cbn [poll_loop];
  unfold requests_get_result, requests_get, time_sleep, st_write, emit, lift,
    bind, try_except, ret;
  rewrite <- Hreply; cbn [of_reply];
  unfold response_json; rewrite Hbody;
  cbn [py_getitem]; rewrite Hstatus;
  cbn [eq_str String.eqb Ascii.eqb Bool.eqb].

Section Failures.

Variable py_repr : json -> string.
Variable w : world.
Variable h : headers.
Variable request_id : json.

Lemma round_unreadable (n : nat) (rest : list nat) (text : string) :
  unreadable (status_query w h request_id n) text ->
  exists c,
    poll_loop py_repr w h request_id (n :: rest) =
    (round_start h request_id, Raise (Exn c text)).
Proof.
  intros Hbad. unfold status_query in Hbad.
  cbn [poll_loop].
  unfold requests_get_result, time_sleep, emit, lift, bind.
  destruct Hbad as [msg | r text Hbody | r m Hbody Hstatus];
    cbn [of_reply]; unfold response_json.
  - exists RequestException. reflexivity.
  - rewrite Hbody. exists JSONDecodeError. reflexivity.
  - rewrite Hbody. cbn [py_getitem]. rewrite Hstatus.
    exists KeyError. reflexivity.
Qed.

Lemma round_ready_empty_samples (n : nat) (rest : list nat)
    (m inner : list (string * json)) :
  status_reply (status_query w h request_id n) m (JStr "Ready") ->
  dict_get "result" m = Some (JObj inner) ->
  dict_get "sample" inner = None ->
  dict_get "samples" inner = Some (JList []) ->
  poll_loop py_repr w h request_id (n :: rest) =
  (round_start h request_id,
   Ok (None, Some (processing_error py_repr "list index out of range" m))).
Proof.
  intros Hs Hresult Hsample Hsamples. enter_ready Hs.
  rewrite Hresult. cbn [py_contains py_getitem]. rewrite Hsample, Hsamples.
  reflexivity.
Qed.

Lemma round_ready_undecodable (n : nat) (rest : list nat)
    (m inner : list (string * json)) (url : json) (r : response)
    (text : string) :
  status_reply (status_query w h request_id n) m (JStr "Ready") ->
  dict_get "result" m = Some (JObj inner) ->
  offers_url inner url ->
  get_url w url = Reply r ->
  is_error_status (status_code r) = false ->
  image_open w (content r) = Undecodable text ->
  poll_loop py_repr w h request_id (n :: rest) =
  ((round_start h request_id ++ [HttpFetch url])%list,
   Ok (None, Some (processing_error py_repr text m))).
Proof.
  intros Hs Hresult Hurl Hget Hcode Hopen. enter_ready Hs.
  rewrite Hresult. cbn [py_contains py_getitem].
  destruct Hurl as [Hsample | others Hsample Hsamples].
  - rewrite Hsample, Hget. cbn [of_reply]. unfold raise_for_status.
    rewrite Hcode, Hopen. reflexivity.
  - rewrite Hsample, Hsamples. cbn [py_first]. rewrite Hget. cbn [of_reply].
    unfold raise_for_status. rewrite Hcode, Hopen. reflexivity.
Qed.

Lemma round_ready_download_fails (n : nat) (rest : list nat)
    (m inner : list (string * json)) (url : json) (text : string) :
  status_reply (status_query w h request_id n) m (JStr "Ready") ->
  dict_get "result" m = Some (JObj inner) ->
  offers_url inner url ->
  get_url w url = NetworkError text ->
  poll_loop py_repr w h request_id (n :: rest) =
  ((round_start h request_id ++ [HttpFetch url])%list,
   Ok (None, Some (processing_error py_repr text m))).
Proof.
  intros Hs Hresult Hurl Hget. enter_ready Hs.
  rewrite Hresult. cbn [py_contains py_getitem].
  destruct Hurl as [Hsample | others Hsample Hsamples].
  - rewrite Hsample, Hget. reflexivity.
  - rewrite Hsample, Hsamples. cbn [py_first]. rewrite Hget. reflexivity.
Qed.

Ltac no_or_one_download :=
  first [left; reflexivity | right; eexists; reflexivity].

Ltac ends_with_message tail :=
  eexists tail, _;
  split; [reflexivity
         |split; [no_or_one_download|right; eexists; reflexivity]].

Ltac ends_with_image tail :=
  eexists tail, _;
  split; [reflexivity
         |split; [no_or_one_download|left; eexists; reflexivity]].

Ltac follow_download url :=
  let r := fresh "r" in
  let text := fresh "text" in
  let img := fresh "img" in
  destruct (get_url w url) as [r | text]; cbn [of_reply];
  [ unfold raise_for_status;
    destruct (is_error_status (status_code r));
    [ ends_with_message [HttpFetch url]
    | destruct (image_open w (content r)) as [img | text]; cbn [of_decoded];
      [ ends_with_image [HttpFetch url]
      | ends_with_message [HttpFetch url] ] ]
  | ends_with_message [HttpFetch url] ].

(** Whatever a [Ready] reply holds and whatever the download does, the round
    ends the loop with the picture or with the message of the inner handler,
    and makes no further status query. *)
Lemma round_ready_any (n : nat) (rest : list nat) (m : list (string * json)) :
  status_reply (status_query w h request_id n) m (JStr "Ready") ->
  exists tail out,
    poll_loop py_repr w h request_id (n :: rest) =
    ((round_start h request_id ++ tail)%list, Ok out) /\
    (tail = [] \/ exists url, tail = [HttpFetch url]) /\
    ((exists img, out = (Some img, None)) \/
     (exists text, out = (None, Some (processing_error py_repr text m)))).
Proof.
  intros Hs. enter_ready Hs. unfold processing_error.
  destruct (dict_get "result" m) as [inner|];
    [|ends_with_message (@nil event)].
  destruct (py_contains "sample" inner) as [[|] | e];
    [| |ends_with_message (@nil event)].
  - destruct (py_getitem inner "sample") as [url | e];
      [|ends_with_message (@nil event)].
    follow_download url.
  - destruct (py_getitem inner "samples") as [samples | e];
      [|ends_with_message (@nil event)].
    destruct (py_first samples) as [url | e];
      [|ends_with_message (@nil event)].
    follow_download url.
Qed.

End Failures.

(** ** Calls that fail, and the fallback to [samples] *)

Section Paths.

Variable py_repr : json -> string.
Variable w : world.
Variables api_key prompt negative_prompt : string.
Variables width height : Z.
Variable guidance_scale : Q.
Variable seed : option Z.
Variable sampler : string.
Variable steps : Z.

Let h : headers := mk_headers api_key.

Let p : payload :=
  mk_payload prompt negative_prompt width height guidance_scale seed sampler
    steps.

Let run : M result :=
  call_flux_api py_repr w api_key prompt negative_prompt width height
    guidance_scale seed sampler steps.

Let submitted : http_reply :=
  submission w api_key prompt negative_prompt width height guidance_scale seed
    sampler steps.

Let opening : trace :=
  [StWrite "Submitting image generation request...";
   HttpPost (base_url ++ "/flux-pro-1.1") h p;
   StWrite "Waiting for image generation..."].

Lemma call_accepted_raise (request_id : json) (t : trace) (c : exn_class)
    (msg : string) :
  accepted submitted request_id ->
  poll_loop py_repr w h request_id (seq 0 max_attempts)
    = (t, Raise (Exn c msg)) ->
  run = ((opening ++ t)%list, Ok (None, Some ("Unexpected error: " ++ msg))).
Proof.
  intros Hacc Hloop.
  inversion Hacc as [r m rid Hcode Hbody Hid Hreply]; subst rid.
  unfold submitted, submission in Hreply.
  unfold run, call_flux_api. cbv zeta.
  unfold requests_post, st_write, emit, lift, bind, try_except, ret.
  rewrite <- Hreply. cbn [of_reply].
  unfold raise_for_status, response_json. rewrite Hcode, Hbody.
  cbn [py_contains py_getitem]. rewrite Hid. cbn [negb].
  fold h. rewrite Hloop. rewrite app_nil_r. reflexivity.
Qed.

(** Pending rounds before attempt [k], then a round that ends the loop with
    a pair or with an exception. *)
Lemma call_until_any (k : nat) (request_id : json) (t1 : trace)
    (out : res result) :
  (1 <= k <= max_attempts)%nat ->
  accepted submitted request_id ->
  (forall i, (i < k - 1)%nat -> pending (status_query w h request_id i)) ->
  poll_loop py_repr w h request_id
    ((k - 1) :: seq (S (k - 1)) (max_attempts - S (k - 1))) = (t1, out) ->
  (forall msg r, out <> Raise (HTTPError msg r)) ->
  exists t0,
    polls t0 = (k - 1)%nat /\ fetched t0 = [] /\
    (elapsed t0 == inject_Z (Z.of_nat (k - 1)) * poll_interval)%Q /\
    run =
    ((opening ++ t0 ++ t1)%list,
     match out with
     | Ok r => Ok r
     | Raise e => Ok (None, Some ("Unexpected error: " ++ exn_str e))
     end).
Proof.
  intros Hk Hacc Hpending Hlast Hout.
  destruct (poll_loop_until py_repr w h request_id (k - 1) t1 out)
    as (t0 & Hp & Hf & _ & He & Hloop); [lia|assumption|assumption|].
  exists t0. repeat split; try assumption.
  destruct out as [r | [msg r | c msg]].
  - apply (call_accepted py_repr w api_key prompt negative_prompt width height
             guidance_scale seed sampler steps request_id); assumption.
  - exfalso. apply (Hout msg r). reflexivity.
  - apply (call_accepted_raise request_id _ c); assumption.
Qed.

Lemma polls_after_opening (t0 t1 : trace) :
  polls (opening ++ t0 ++ t1)%list = (polls t0 + polls t1)%nat.
Proof.
  rewrite !polls_app. reflexivity.
Qed.

Lemma fetched_after_opening (t0 t1 : trace) :
  fetched (opening ++ t0 ++ t1)%list = (fetched t0 ++ fetched t1)%list.
Proof.
  rewrite !fetched_app. reflexivity.
Qed.

Lemma elapsed_after_opening (t0 t1 : trace) :
  (elapsed (opening ++ t0 ++ t1)%list == elapsed t0 + elapsed t1)%Q.
Proof.
  rewrite !elapsed_app. cbn [elapsed opening]. ring.
Qed.

(** X4.  When the submission fails on the network, the call returns
    "Unexpected error: " followed by the text of the exception; the
    submission is its only HTTP call. *)
Theorem unreachable_submission_is_unexpected_error (msg : string) :
  submitted = NetworkError msg ->
  snd run = Ok (None, Some ("Unexpected error: " ++ msg)) /\
  polls (fst run) = 0%nat /\
  network_calls (fst run) = 1%nat.
Proof.
  intros Hreply. unfold submitted, submission in Hreply.
  unfold run, call_flux_api. cbv zeta.
  unfold requests_post, st_write, emit, lift, bind, try_except, ret.
  rewrite Hreply. repeat split.
Qed.

(** X5.  When the submission is answered with no error status and a body
    that is not JSON, the call returns "Unexpected error: " followed by the
    text of the decoding error, not the "API Error" form, and makes no
    status query. *)
Theorem undecodable_submission_is_unexpected_error (r : response)
    (text : string) :
  submitted = Reply r ->
  is_error_status (status_code r) = false ->
  json_body r = inr text ->
  snd run = Ok (None, Some ("Unexpected error: " ++ text)) /\
  polls (fst run) = 0%nat.
Proof.
  intros Hreply Hcode Hbody. unfold submitted, submission in Hreply.
  unfold run, call_flux_api. cbv zeta.
  unfold requests_post, st_write, emit, lift, bind, try_except, ret.
  rewrite Hreply. cbn [of_reply].
  unfold raise_for_status, response_json. rewrite Hcode, Hbody.
  repeat split.
Qed.

(** X6.  Only a JSON object starts the polling.  When the submission is
    answered with no error status and a JSON value that is not an object (a
    list, a string, a number, [null]), the call makes no status query and
    returns "No request ID in response" or an "Unexpected error: ..."
    message, even when the list or the string contains "id". *)
Theorem non_object_submission_never_polls (r : response) (v : json) :
  submitted = Reply r ->
  is_error_status (status_code r) = false ->
  json_body r = inl v ->
  (forall m, v <> JObj m) ->
  polls (fst run) = 0%nat /\
  exists msg,
    snd run = Ok (None, Some msg) /\
    (msg = "No request ID in response" \/
     String.prefix "Unexpected error: " msg = true).
Proof.
  intros Hreply Hcode Hbody Hv. unfold submitted, submission in Hreply.
  unfold run, call_flux_api. cbv zeta.
  unfold requests_post, st_write, emit, lift, bind, try_except, ret.
  rewrite Hreply. cbn [of_reply].
  unfold raise_for_status, response_json. rewrite Hcode, Hbody.
  destruct v as [| b | z | x | s | l | m]; cbn [py_contains negb];
    try (split; [reflexivity|eexists; split;
                 [reflexivity|right; apply prefix_app]]).
  - destruct (is_infix "id" s); cbn [negb py_getitem].
    + split; [reflexivity|eexists; split;
              [reflexivity|right; apply prefix_app]].
    + split; [reflexivity|eexists; split; [reflexivity|left; reflexivity]].
  - destruct (existsb (fun x => eq_str x "id") l); cbn [negb py_getitem].
    + split; [reflexivity|eexists; split;
              [reflexivity|right; apply prefix_app]].
    + split; [reflexivity|eexists; split; [reflexivity|left; reflexivity]].
  - exfalso. apply (Hv m). reflexivity.
Qed.

(** X7.  When the first status reply that is not pending cannot be read (the
    query fails on the network, the body is not JSON, or the object has no
    [status] field), the call returns "Unexpected error: " followed by the
    text of the exception: the failure is outside the [Ready] branch, so the
    message has no "Response: ..." part.  No further query is made and
    nothing is downloaded. *)
Theorem unreadable_status_is_unexpected_error (k : nat) (request_id : json)
    (text : string) :
  (1 <= k <= max_attempts)%nat ->
  accepted submitted request_id ->
  (forall i, (i < k - 1)%nat -> pending (status_query w h request_id i)) ->
  unreadable (status_query w h request_id (k - 1)) text ->
  snd run = Ok (None, Some ("Unexpected error: " ++ text)) /\
  polls (fst run) = k /\
  fetched (fst run) = [].
Proof.
  intros Hk Hacc Hpending Hbad.
  destruct (round_unreadable py_repr w h request_id (k - 1)
              (seq (S (k - 1)) (max_attempts - S (k - 1))) text Hbad)
    as [c Hround].
  destruct (call_until_any k request_id _ _ Hk Hacc Hpending Hround)
    as (t0 & Hp & Hf & _ & Hrun); [discriminate|].
  rewrite Hrun. cbn [fst snd exn_str]. split; [reflexivity|]. split.
  - rewrite polls_after_opening, Hp. unfold polls. simpl. lia.
  - rewrite fetched_after_opening, Hf. reflexivity.
Qed.

(** X8.  When the first status reply that is not pending says [Ready], its
    result payload has no [sample] field and its [samples] field is a list
    that is not empty, the call downloads the first URL of the list and no
    other, and returns the decoded picture, provided the download and the
    decoding succeed. *)
Theorem samples_fallback_returns_image (k : nat) (request_id : json)
    (m inner : list (string * json)) (url : json) (others : list json)
    (r : response) (img : image) :
  (1 <= k <= max_attempts)%nat ->
  accepted submitted request_id ->
  (forall i, (i < k - 1)%nat -> pending (status_query w h request_id i)) ->
  status_reply (status_query w h request_id (k - 1)) m (JStr "Ready") ->
  dict_get "result" m = Some (JObj inner) ->
  dict_get "sample" inner = None ->
  dict_get "samples" inner = Some (JList (url :: others)) ->
  get_url w url = Reply r ->
  is_error_status (status_code r) = false ->
  image_open w (content r) = Decoded img ->
  snd run = Ok (Some img, None) /\
  fetched (fst run) = [url] /\
  polls (fst run) = k.
Proof.
  intros Hk Hacc Hpending Hready Hresult Hsample Hsamples Hget Hcode Hopen.
  destruct (call_until_any k request_id _ _ Hk Hacc Hpending
              (round_ready_image py_repr w h request_id (k - 1) _ m inner url
                 r img Hready Hresult
                 (offers_samples inner url others Hsample Hsamples)
                 Hget Hcode Hopen))
    as (t0 & Hp & Hf & _ & Hrun); [discriminate|].
  rewrite Hrun. cbn [fst snd]. split; [reflexivity|]. split.
  - rewrite fetched_after_opening, Hf. reflexivity.
  - rewrite polls_after_opening, Hp. unfold polls. simpl. lia.
Qed.

(** X9.  When the first status reply that is not pending says [Ready], its
    result payload has no [sample] field and its [samples] field is the
    empty list, the call returns the processing error with the text of the
    [IndexError], "list index out of range", and the printed payload;
    nothing is downloaded. *)
Theorem empty_samples_is_processing_error (k : nat) (request_id : json)
    (m inner : list (string * json)) :
  (1 <= k <= max_attempts)%nat ->
  accepted submitted request_id ->
  (forall i, (i < k - 1)%nat -> pending (status_query w h request_id i)) ->
  status_reply (status_query w h request_id (k - 1)) m (JStr "Ready") ->
  dict_get "result" m = Some (JObj inner) ->
  dict_get "sample" inner = None ->
  dict_get "samples" inner = Some (JList []) ->
  snd run =
    Ok (None, Some (processing_error py_repr "list index out of range" m)) /\
  fetched (fst run) = [] /\
  polls (fst run) = k.
Proof.
  intros Hk Hacc Hpending Hready Hresult Hsample Hsamples.
  destruct (call_until_any k request_id _ _ Hk Hacc Hpending
              (round_ready_empty_samples py_repr w h request_id (k - 1) _ m
                 inner Hready Hresult Hsample Hsamples))
    as (t0 & Hp & Hf & _ & Hrun); [discriminate|].
  rewrite Hrun. cbn [fst snd]. split; [reflexivity|]. split.
  - rewrite fetched_after_opening, Hf. reflexivity.
  - rewrite polls_after_opening, Hp. unfold polls. simpl. lia.
Qed.

(** X10.  When the picture of a [Ready] reply is downloaded with no error
    status and its bytes do not decode as a picture, the call returns the
    processing error with the text of the decoder's exception and the
    printed payload, after that one download. *)
Theorem undecodable_download_is_processing_error (k : nat) (request_id : json)
    (m inner : list (string * json)) (url : json) (r : response)
    (text : string) :
  (1 <= k <= max_attempts)%nat ->
  accepted submitted request_id ->
  (forall i, (i < k - 1)%nat -> pending (status_query w h request_id i)) ->
  status_reply (status_query w h request_id (k - 1)) m (JStr "Ready") ->
  dict_get "result" m = Some (JObj inner) ->
  offers_url inner url ->
  get_url w url = Reply r ->
  is_error_status (status_code r) = false ->
  image_open w (content r) = Undecodable text ->
  snd run = Ok (None, Some (processing_error py_repr text m)) /\
  fetched (fst run) = [url].
Proof.
  intros Hk Hacc Hpending Hready Hresult Hurl Hget Hcode Hopen.
  destruct (call_until_any k request_id _ _ Hk Hacc Hpending
              (round_ready_undecodable py_repr w h request_id (k - 1) _ m
                 inner url r text Hready Hresult Hurl Hget Hcode Hopen))
    as (t0 & Hp & Hf & _ & Hrun); [discriminate|].
  rewrite Hrun. cbn [fst snd]. split; [reflexivity|].
  rewrite fetched_after_opening, Hf. reflexivity.
Qed.

(** X11.  When the download of the picture of a [Ready] reply fails on the
    network, the call returns the processing error with the text of the
    exception and the printed payload, not the "Unexpected error" form. *)
Theorem unreachable_download_is_processing_error (k : nat) (request_id : json)
    (m inner : list (string * json)) (url : json) (text : string) :
  (1 <= k <= max_attempts)%nat ->
  accepted submitted request_id ->
  (forall i, (i < k - 1)%nat -> pending (status_query w h request_id i)) ->
  status_reply (status_query w h request_id (k - 1)) m (JStr "Ready") ->
  dict_get "result" m = Some (JObj inner) ->
  offers_url inner url ->
  get_url w url = NetworkError text ->
  snd run = Ok (None, Some (processing_error py_repr text m)) /\
  fetched (fst run) = [url].
Proof.
  intros Hk Hacc Hpending Hready Hresult Hurl Hget.
  destruct (call_until_any k request_id _ _ Hk Hacc Hpending
              (round_ready_download_fails py_repr w h request_id (k - 1) _ m
                 inner url text Hready Hresult Hurl Hget))
    as (t0 & Hp & Hf & _ & Hrun); [discriminate|].
  rewrite Hrun. cbn [fst snd]. split; [reflexivity|].
  rewrite fetched_after_opening, Hf. reflexivity.
Qed.

(** X12.  When the first status reply that is not pending says [Ready], then
    whatever else the reply holds and whatever the download does, the call
    returns the picture or a message of the form
    "Error processing API response: ..." that ends with the printed payload
    (never the "Unexpected error" or "API Error" form); that reply is the
    last status query, and the call has slept [k] times 0.5 time-units in
    all. *)
Theorem ready_ends_with_image_or_processing_error (k : nat)
    (request_id : json) (m : list (string * json)) :
  (1 <= k <= max_attempts)%nat ->
  accepted submitted request_id ->
  (forall i, (i < k - 1)%nat -> pending (status_query w h request_id i)) ->
  status_reply (status_query w h request_id (k - 1)) m (JStr "Ready") ->
  ((exists img, snd run = Ok (Some img, None)) \/
   (exists text, snd run = Ok (None, Some (processing_error py_repr text m)))) /\
  polls (fst run) = k /\
  (elapsed (fst run) == inject_Z (Z.of_nat k) * poll_interval)%Q.
Proof.
  intros Hk Hacc Hpending Hready.
  destruct (round_ready_any py_repr w h request_id (k - 1)
              (seq (S (k - 1)) (max_attempts - S (k - 1))) m Hready)
    as (tail & out & Hround & Htail & Hout).
  destruct (call_until_any k request_id _ _ Hk Hacc Hpending Hround)
    as (t0 & Hp & Hf & He & Hrun); [discriminate|].
  rewrite Hrun. cbn [fst snd]. split; [|split].
  - destruct Hout as [(img & ->) | (text & ->)];
      [left; exists img|right; exists text]; reflexivity.
  - rewrite polls_after_opening, polls_app, Hp.
    destruct Htail as [-> | (url & ->)]; unfold polls; simpl; lia.
  - rewrite elapsed_after_opening, elapsed_app, He.
    assert (Hquiet : (elapsed tail == 0)%Q)
      by (destruct Htail as [-> | (url & ->)]; reflexivity).
    rewrite Hquiet. cbn [elapsed round_start].
    replace (Z.of_nat k) with (Z.of_nat (k - 1) + 1)%Z by lia.
    rewrite inject_Z_plus. unfold poll_interval. ring.
Qed.

End Paths.

(** ** The HTTP status of a status reply *)

Section Restatus.

Variable py_repr : json -> string.
Variable w : world.
Variable code : nat -> Z.

Lemma poll_loop_restatus (h : headers) (request_id : json)
    (attempts : list nat) :
  poll_loop py_repr (restatus code w) h request_id attempts =
  poll_loop py_repr w h request_id attempts.
Proof.
  induction attempts as [|n rest IH]; [reflexivity|].
  cbn [poll_loop].
  unfold requests_get_result, time_sleep, st_write, emit, lift, bind.
  cbn [get_result restatus].
  destruct (get_result w n (base_url ++ "/get_result") h request_id)
    as [reply | msg]; cbn [of_reply]; [|reflexivity].
  unfold response_json. cbn [json_body set_status].
  destruct (json_body reply) as [result | msg]; [|reflexivity].
  destruct (py_getitem result "status") as [status | e]; [|reflexivity].
  destruct (eq_str status "Ready"); [reflexivity|].
  destruct (eq_str status "Failed"); [reflexivity|].
  rewrite IH. reflexivity.
Qed.

(** X13.  The HTTP status of a status reply is never looked at: the loop
    calls no [raise_for_status] on it.  Replacing the status codes of all the
    status replies by any others (a 500 for a 200, say) changes neither what
    the call does nor what it returns. *)
Theorem status_code_of_status_reply_is_ignored
    (api_key prompt negative_prompt : string) (width height : Z)
    (guidance_scale : Q) (seed : option Z) (sampler : string) (steps : Z) :
  call_flux_api py_repr (restatus code w) api_key prompt negative_prompt width
    height guidance_scale seed sampler steps =
  call_flux_api py_repr w api_key prompt negative_prompt width height
    guidance_scale seed sampler steps.
Proof.
  unfold call_flux_api. cbv zeta.
  unfold requests_post, st_write, emit, lift, bind, try_except, ret.
  cbn [post_generate restatus].
  destruct (post_generate w (base_url ++ "/flux-pro-1.1") (mk_headers api_key)
              (mk_payload prompt negative_prompt width height guidance_scale
                 seed sampler steps)) as [r | msg]; cbn [of_reply];
    [|reflexivity].
  destruct (raise_for_status r); [|reflexivity].
  destruct (response_json r) as [request_data | e]; [|reflexivity].
  destruct (py_contains "id" request_data) as [[|] | e]; cbn [negb];
    [|reflexivity|reflexivity].
  destruct (py_getitem request_data "id") as [request_id | e]; [|reflexivity].
  rewrite poll_loop_restatus. reflexivity.
Qed.

End Restatus.

(** ** The button *)

Lemma aspect_size_in_presets (aspect_ratio : string) :
  In (aspect_size aspect_ratio)
     [(1024, 1024); (768, 1024); (1024, 768); (1024, 576); (576, 1024)]%Z.
Proof.
  unfold aspect_size.
  destruct (String.eqb aspect_ratio "Square (1:1)"); [simpl; tauto|].
  destruct (String.eqb aspect_ratio "Portrait (3:4)"); [simpl; tauto|].
  destruct (String.eqb aspect_ratio "Landscape (4:3)"); [simpl; tauto|].
  destruct (String.eqb aspect_ratio "Wide (16:9)"); simpl; tauto.
Qed.

Section Button.

Variable py_repr : json -> string.
Variable w : world.
Variables api_key prompt negative_prompt aspect_ratio : string.
Variable guidance_scale : Q.
Variable seed : option Z.
Variable sampler : string.
Variable steps : Z.

Let pressed : M unit :=
  generate_pressed py_repr w api_key prompt negative_prompt aspect_ratio
    guidance_scale seed sampler steps.

Let called : M result :=
  call_flux_api py_repr w api_key prompt negative_prompt
    (fst (aspect_size aspect_ratio)) (snd (aspect_size aspect_ratio))
    guidance_scale seed sampler steps.

(** With a prompt, pressing the button is the call followed by what is
    shown. *)
Lemma pressed_with_prompt :
  str_truthy prompt = true ->
  pressed =
  bind called
    (fun r =>
       let (img, error) := r : result in
       if error_truthy error then
         emit (StError ("Error: "
                        ++ match error with Some s => s | None => "" end))
       else
         match img with
         | Some i =>
             bind (emit (StSuccess "✨ Generation Complete!"))
               (fun _ => emit (StImage i))
         | None => ret tt
         end).
Proof.
  intros Hprompt. unfold pressed, called, generate_pressed.
  destruct (aspect_size aspect_ratio) as [width height].
  rewrite Hprompt. reflexivity.
Qed.

(** X14.  With a prompt that is not empty, pressing the button sends exactly
    one submission; its body carries the prompt and the other fields as
    entered, and its width and height are the pair of the chosen aspect
    ratio, hence one of the five preset sizes. *)
Theorem pressed_submits_a_preset_size :
  str_truthy prompt = true ->
  exists tail,
    fst pressed =
      (StWrite "Submitting image generation request..."
       :: HttpPost (base_url ++ "/flux-pro-1.1") (mk_headers api_key)
            (mk_payload prompt negative_prompt
               (fst (aspect_size aspect_ratio))
               (snd (aspect_size aspect_ratio))
               guidance_scale seed sampler steps)
       :: tail)%list /\
    posts tail = 0%nat /\
    In (fst (aspect_size aspect_ratio), snd (aspect_size aspect_ratio))
       [(1024, 1024); (768, 1024); (1024, 768); (1024, 576); (576, 1024)]%Z.
Proof.
  intros Hprompt. rewrite (pressed_with_prompt Hprompt).
  pose proof (call_returns_pair py_repr w api_key prompt negative_prompt
                (fst (aspect_size aspect_ratio))
                (snd (aspect_size aspect_ratio))
                guidance_scale seed sampler steps) as (r & Hr & Ho).
  fold called in Hr.
  assert (Hshape : exists tail,
    fst called =
      (StWrite "Submitting image generation request..."
       :: HttpPost (base_url ++ "/flux-pro-1.1") (mk_headers api_key)
            (mk_payload prompt negative_prompt
               (fst (aspect_size aspect_ratio))
               (snd (aspect_size aspect_ratio))
               guidance_scale seed sampler steps)
       :: tail)%list /\ posts tail = 0%nat).
  { destruct (call_shape py_repr w api_key prompt negative_prompt
                (fst (aspect_size aspect_ratio))
                (snd (aspect_size aspect_ratio))
                guidance_scale seed sampler steps)
      as [(msg & Hrun) | (request_id & _ & Hrun)]; fold called in Hrun;
      rewrite Hrun; cbn [fst].
    - exists []. split; reflexivity.
    - eexists. split; [reflexivity|].
      destruct (poll_loop_budget py_repr w (mk_headers api_key) request_id
                  (seq 0 max_attempts)) as (_ & Hs & _).
      unfold posts in *. cbn [filter is_post]. exact Hs. }
  destruct Hshape as (tail & Htrace & Hposts).
  destruct called as [t out]. cbn [fst snd] in Htrace, Hr. subst t out.
  unfold bind, emit, ret.
  assert (Hshown : forall shown : trace, posts shown = 0%nat ->
    posts (tail ++ shown)%list = 0%nat).
  { intros shown Hshown. rewrite posts_app, Hposts, Hshown. reflexivity. }
  assert (Hsize :
    In (fst (aspect_size aspect_ratio), snd (aspect_size aspect_ratio))
       [(1024, 1024); (768, 1024); (1024, 768); (1024, 576); (576, 1024)]%Z).
  { rewrite <- surjective_pairing. apply aspect_size_in_presets. }
  destruct Ho as [img | msg Hmsg]; cbn [error_truthy].
  - exists (tail ++ [StSuccess "✨ Generation Complete!"; StImage img])%list.
    split; [reflexivity|]. split; [apply Hshown; reflexivity|exact Hsize].
  - destruct msg as [|c msg]; [contradiction|]. cbn [str_truthy].
    exists (tail ++ [StError ("Error: " ++ String c msg)])%list.
    split; [reflexivity|]. split; [apply Hshown; reflexivity|exact Hsize].
Qed.


End Button.

(** ** Closed instances of the further properties *)

(** An instance of X3. *)
Lemma returned_image_is_the_download_witness :
  let w := ready_at 0 picture_bytes in
  let run :=
    call_flux_api repr_sketch w "key" "a clock" "" 1024 1024 3 None "euler_a"
      28 in
  exists before url r,
    fst run = (before ++ [HttpFetch url])%list /\
    fetched before = [] /\
    get_url w url = Reply r /\
    is_error_status (status_code r) = false /\
    image_open w (content r) = Decoded {| pixels := "PNG" |}.
Proof.
  apply (returned_image_is_the_download repr_sketch (ready_at 0 picture_bytes)
           "key" "a clock" "" 1024 1024 3 None "euler_a" 28
           {| pixels := "PNG" |}).
  reflexivity.
Defined.

(** An instance of X4. *)
Lemma unreachable_submission_is_unexpected_error_witness :
  let run :=
    call_flux_api repr_sketch unreachable "key" "a clock" "" 1024 1024 3 None
      "euler_a" 28 in
  snd run = Ok (None, Some ("Unexpected error: " ++ "Connection refused")) /\
  polls (fst run) = 0%nat /\
  network_calls (fst run) = 1%nat.
Proof.
  apply (unreachable_submission_is_unexpected_error repr_sketch unreachable
           "key" "a clock" "" 1024 1024 3 None "euler_a" 28
           "Connection refused").
  reflexivity.
Defined.

(** An instance of X5: an HTML page with status 200. *)
Lemma undecodable_submission_is_unexpected_error_witness :
  let run :=
    call_flux_api repr_sketch (never_ready (bytes_reply 200 "" "<html>"))
      "key" "a clock" "" 1024 1024 3 None "euler_a" 28 in
  snd run =
    Ok (None,
        Some ("Unexpected error: "
              ++ "Expecting value: line 1 column 1 (char 0)")) /\
  polls (fst run) = 0%nat.
Proof.
  apply (undecodable_submission_is_unexpected_error repr_sketch
           (never_ready (bytes_reply 200 "" "<html>"))
           "key" "a clock" "" 1024 1024 3 None "euler_a" 28
           (bytes_reply 200 "" "<html>")
           "Expecting value: line 1 column 1 (char 0)").
  - reflexivity.
  - reflexivity.
  - reflexivity.
Defined.

(** An instance of X6: the body is the list with the one string "id". *)
Lemma non_object_submission_never_polls_witness :
  let run :=
    call_flux_api repr_sketch
      (never_ready (json_reply 200 "" (JList [JStr "id"])))
      "key" "a clock" "" 1024 1024 3 None "euler_a" 28 in
  polls (fst run) = 0%nat /\
  exists msg,
    snd run = Ok (None, Some msg) /\
    (msg = "No request ID in response" \/
     String.prefix "Unexpected error: " msg = true).
Proof.
  apply (non_object_submission_never_polls repr_sketch
           (never_ready (json_reply 200 "" (JList [JStr "id"])))
           "key" "a clock" "" 1024 1024 3 None "euler_a" 28
           (json_reply 200 "" (JList [JStr "id"])) (JList [JStr "id"])).
  - reflexivity.
  - reflexivity.
  - reflexivity.
  - intros m Hm. discriminate Hm.
Defined.

(** An instance of X7: the second status query is answered with a 502 page
    that is not JSON. *)
Lemma unreadable_status_is_unexpected_error_witness :
  let run :=
    call_flux_api repr_sketch
      (turning 1 (bytes_reply 502 "" "Bad Gateway") picture_bytes)
      "key" "a clock" "" 1024 1024 3 None "euler_a" 28 in
  snd run =
    Ok (None,
        Some ("Unexpected error: "
              ++ "Expecting value: line 1 column 1 (char 0)")) /\
  polls (fst run) = 2%nat /\
  fetched (fst run) = [].
Proof.
  apply (unreadable_status_is_unexpected_error repr_sketch
           (turning 1 (bytes_reply 502 "" "Bad Gateway") picture_bytes)
           "key" "a clock" "" 1024 1024 3 None "euler_a" 28
           2 (JStr "job-1") "Expecting value: line 1 column 1 (char 0)").
  - unfold max_attempts. lia.
  - show_accepted.
  - intros i Hi. destruct i as [|i]; [show_pending|simpl in Hi; lia].
  - apply (unreadable_body (bytes_reply 502 "" "Bad Gateway")). reflexivity.
Defined.

(** An instance of X8: no [sample], two URLs in [samples]. *)
Lemma samples_fallback_returns_image_witness :
  let run :=
    call_flux_api repr_sketch
      (turning 1 (json_reply 200 "" (JObj fallback_body)) picture_bytes)
      "key" "a clock" "" 1024 1024 3 None "euler_a" 28 in
  snd run = Ok (Some {| pixels := "PNG" |}, None) /\
  fetched (fst run) = [JStr "https://img.example/two.png"] /\
  polls (fst run) = 2%nat.
Proof.
  apply (samples_fallback_returns_image repr_sketch
           (turning 1 (json_reply 200 "" (JObj fallback_body)) picture_bytes)
           "key" "a clock" "" 1024 1024 3 None "euler_a" 28
           2 (JStr "job-1") fallback_body fallback_payload
           (JStr "https://img.example/two.png")
           [JStr "https://img.example/three.png"]
           picture_bytes {| pixels := "PNG" |}).
  - unfold max_attempts. lia.
  - show_accepted.
  - intros i Hi. destruct i as [|i]; [show_pending|simpl in Hi; lia].
  - show_status.
  - reflexivity.
  - reflexivity.
  - reflexivity.
  - reflexivity.
  - reflexivity.
  - reflexivity.
Defined.

(** An instance of X9: [Ready] on the first attempt, with an empty
    [samples]. *)
Lemma empty_samples_is_processing_error_witness :
  let run :=
    call_flux_api repr_sketch
      (turning 0 (json_reply 200 "" (JObj no_samples_body)) picture_bytes)
      "key" "a clock" "" 1024 1024 3 None "euler_a" 28 in
  snd run =
    Ok (None,
        Some (processing_error repr_sketch "list index out of range"
                no_samples_body)) /\
  fetched (fst run) = [] /\
  polls (fst run) = 1%nat.
Proof.
  apply (empty_samples_is_processing_error repr_sketch
           (turning 0 (json_reply 200 "" (JObj no_samples_body)) picture_bytes)
           "key" "a clock" "" 1024 1024 3 None "euler_a" 28
           1 (JStr "job-1") no_samples_body [("samples", JList [])]).
  - unfold max_attempts. lia.
  - show_accepted.
  - intros i Hi. simpl in Hi. lia.
  - show_status.
  - reflexivity.
  - reflexivity.
  - reflexivity.
Defined.

(** An instance of X10. *)
Lemma undecodable_download_is_processing_error_witness :
  let run :=
    call_flux_api repr_sketch (without_decoder (ready_at 0 picture_bytes))
      "key" "a clock" "" 1024 1024 3 None "euler_a" 28 in
  snd run =
    Ok (None,
        Some (processing_error repr_sketch "cannot identify image file"
                ready_body)) /\
  fetched (fst run) = [JStr "https://img.example/one.png"].
Proof.
  apply (undecodable_download_is_processing_error repr_sketch
           (without_decoder (ready_at 0 picture_bytes))
           "key" "a clock" "" 1024 1024 3 None "euler_a" 28
           1 (JStr "job-1") ready_body ready_payload
           (JStr "https://img.example/one.png") picture_bytes
           "cannot identify image file").
  - unfold max_attempts. lia.
  - show_accepted.
  - intros i Hi. simpl in Hi. lia.
  - show_status.
  - reflexivity.
  - apply offers_sample. reflexivity.
  - reflexivity.
  - reflexivity.
  - reflexivity.
Defined.

(** An instance of X11. *)
Lemma unreachable_download_is_processing_error_witness :
  let run :=
    call_flux_api repr_sketch (without_download (ready_at 0 picture_bytes))
      "key" "a clock" "" 1024 1024 3 None "euler_a" 28 in
  snd run =
    Ok (None,
        Some (processing_error repr_sketch "Read timed out" ready_body)) /\
  fetched (fst run) = [JStr "https://img.example/one.png"].
Proof.
  apply (unreachable_download_is_processing_error repr_sketch
           (without_download (ready_at 0 picture_bytes))
           "key" "a clock" "" 1024 1024 3 None "euler_a" 28
           1 (JStr "job-1") ready_body ready_payload
           (JStr "https://img.example/one.png") "Read timed out").
  - unfold max_attempts. lia.
  - show_accepted.
  - intros i Hi. simpl in Hi. lia.
  - show_status.
  - reflexivity.
  - apply offers_sample. reflexivity.
  - reflexivity.
Defined.

(** An instance of X12: [Ready] on the second attempt, download answered
    with 404. *)
Lemma ready_ends_with_image_or_processing_error_witness :
  let run :=
    call_flux_api repr_sketch (ready_at 1 not_found) "key" "a clock" ""
      1024 1024 3 None "euler_a" 28 in
  ((exists img, snd run = Ok (Some img, None)) \/
   (exists text,
      snd run = Ok (None, Some (processing_error repr_sketch text ready_body)))) /\
  polls (fst run) = 2%nat /\
  (elapsed (fst run) == inject_Z (Z.of_nat 2) * poll_interval)%Q.
Proof.
  apply (ready_ends_with_image_or_processing_error repr_sketch
           (ready_at 1 not_found)
           "key" "a clock" "" 1024 1024 3 None "euler_a" 28
           2 (JStr "job-1") ready_body).
  - unfold max_attempts. lia.
  - show_accepted.
  - intros i Hi. destruct i as [|i]; [show_pending|simpl in Hi; lia].
  - show_status.
Defined.

(** An instance of X14. *)
Lemma pressed_submits_a_preset_size_witness :
  exists tail,
    fst (generate_pressed repr_sketch (ready_at 1 picture_bytes) "key"
           "a clock" "blurry" "Wide (16:9)" 3 (Some 42%Z) "euler_a" 28) =
      (StWrite "Submitting image generation request..."
       :: HttpPost (base_url ++ "/flux-pro-1.1") (mk_headers "key")
            (mk_payload "a clock" "blurry"
               (fst (aspect_size "Wide (16:9)"))
               (snd (aspect_size "Wide (16:9)"))
               3 (Some 42%Z) "euler_a" 28)
       :: tail)%list /\
    posts tail = 0%nat /\
    In (fst (aspect_size "Wide (16:9)"), snd (aspect_size "Wide (16:9)"))
       [(1024, 1024); (768, 1024); (1024, 768); (1024, 576); (576, 1024)]%Z.
Proof.
  apply (pressed_submits_a_preset_size repr_sketch (ready_at 1 picture_bytes)
           "key" "a clock" "blurry" "Wide (16:9)" 3 (Some 42%Z) "euler_a" 28).
  reflexivity.
Defined.

